(** * FitSync notification service: the notification store, the event
    handlers and the notification API of [src/index.js], embedded in Rocq.

    The service keeps one process-wide [Map] from user id to an array of
    notification objects.  Event handlers append to it through
    [storeNotification]; four HTTP endpoints read, mark, delete and count.
    Every function below is the transcription of the JavaScript function of
    the same name; the clock ([Date.now()], [new Date()]) and the two remote
    lookups are inputs of the functions that use them. *)

From Stdlib Require Import Ascii String ZArith.
From stdpp Require Import base option list strings countable gmap pretty.

Set Default Proof Using "Type".
Open Scope string_scope.
Open Scope list_scope.

(** ** JavaScript values *)

(** The primitive values a JSON payload field, a query parameter or a [Map]
    key can be.  A number is carried by its [Number::toString] rendering:
    the program only ever interpolates numbers into templates, tests them
    for truthiness and uses them as [Map] keys, and the rendering decides all
    three ([+0] and [-0] both print as [0] and are the same key, [NaN] is the
    same key as itself). *)
Inductive JsPrim :=
  | JUndefined
  | JNull
  | JBool (b : bool)
  | JNum (shown : string)
  | JStr (s : string).

(** A flat object: own properties in insertion order (an event payload, a
    user or program record, a metadata literal). *)
Definition JsObject := list (string * JsPrim).

(** What a remote lookup resolves to: a primitive ([null] on failure) or an
    object. *)
Inductive JsValue :=
  | VPrim (p : JsPrim)
  | VObj (o : JsObject).

#[global] Instance JsPrim_eq_dec : EqDecision JsPrim.
Proof. solve_decision. Defined.

Definition JsPrim_encode (p : JsPrim) : unit + (unit + (bool + (string + string))) :=
  match p with
  | JUndefined => inl ()
  | JNull => inr (inl ())
  | JBool b => inr (inr (inl b))
  | JNum n => inr (inr (inr (inl n)))
  | JStr s => inr (inr (inr (inr s)))
  end.

Definition JsPrim_decode (x : unit + (unit + (bool + (string + string)))) : JsPrim :=
  match x with
  | inl _ => JUndefined
  | inr (inl _) => JNull
  | inr (inr (inl b)) => JBool b
  | inr (inr (inr (inl n))) => JNum n
  | inr (inr (inr (inr s))) => JStr s
  end.

#[global] Instance JsPrim_countable : Countable JsPrim.
Proof.
  apply (inj_countable' JsPrim_encode JsPrim_decode).
  by intros [].
Defined.

(** [obj.name]: the property's value, [undefined] when the object has no
    such property. *)
Fixpoint get (name : string) (o : JsObject) : JsPrim :=
  match o with
  | [] => JUndefined
  | (k, v) :: rest => if String.eqb k name then v else get name rest
  end.

(** [v.name] on any value: primitives other than [null] and [undefined] have
    none of the properties the handlers read. *)
Definition prop (name : string) (v : JsValue) : JsPrim :=
  match v with
  | VPrim _ => JUndefined
  | VObj o => get name o
  end.

(** ToBoolean. *)
Definition truthy (p : JsPrim) : bool :=
  match p with
  | JUndefined | JNull => false
  | JBool b => b
  | JNum shown => negb (String.eqb shown "0" || String.eqb shown "NaN")
  | JStr s => negb (String.eqb s "")
  end.

Definition truthy_value (v : JsValue) : bool :=
  match v with
  | VPrim p => truthy p
  | VObj _ => true
  end.

(** ToString, as a template literal applies it to [${...}]. *)
Definition ToString (p : JsPrim) : string :=
  match p with
  | JUndefined => "undefined"
  | JNull => "null"
  | JBool true => "true"
  | JBool false => "false"
  | JNum shown => shown
  | JStr s => s
  end.

(** [a || b]. *)
Definition js_or (a b : JsPrim) : JsPrim := if truthy a then a else b.

(** [haystack.includes(needle)]. *)
Fixpoint includes (needle haystack : string) : bool :=
  String.prefix needle haystack ||
  match haystack with
  | EmptyString => false
  | String _ rest => includes needle rest
  end.

(** The line feed written [\n] in the templates. *)
Definition nl : string := String "010"%char "".

(** ** Notifications and the store *)

(** Milliseconds since the epoch: what [Date.now()] returns and what a
    [Date] object wraps. *)
Definition Date := Z.
Bind Scope Z_scope with Date.

(** The object literal every handler passes to [storeNotification]. *)
Record Draft := {
  type : string;
  category : string;
  title : string;
  message : string;
  metadata : JsObject
}.

(** A stored notification:
    [{ id, ...notification, read_at, created_at }]. *)
Record Notification := {
  id : string;
  draft : Draft;
  read_at : option Date;
  created_at : Date
}.

#[global] Instance Draft_eq_dec : EqDecision Draft.
Proof. solve_decision. Defined.
#[global] Instance Notification_eq_dec : EqDecision Notification.
Proof. solve_decision. Defined.

(** [const notifications = new Map()]: user id to that user's array. *)
Abbreviation Store := (gmap JsPrim (list Notification)).

(** [notifications.get(userId) || []]. *)
Definition get_or_empty (userId : JsPrim) (notifications : Store) : list Notification :=
  default [] (notifications !! userId).

(** [Date.now().toString()]: the decimal rendering of the millisecond
    count. *)
Definition now_toString (now : Z) : string := pretty now.

(** [storeNotification(userId, notification)].  [now] is the reading of
    [Date.now()], [created] that of [new Date()]. *)
Definition storeNotification (now : Z) (created : Date)
    (userId : JsPrim) (notification : Draft) (notifications : Store) : Store :=
  let notifications :=
    match notifications !! userId with
    | None => <[userId := []]> notifications
    | Some _ => notifications
    end in
  alter (λ userNotifications,
           userNotifications ++
           [ {| id := now_toString now;
                draft := notification;
                read_at := None;
                created_at := created |} ])
        userId notifications.

(** ** Event handlers *)

(** One call of the mocked [sendEmail(to, subject, body)]. *)
Record Email := {
  to : JsPrim;
  subject : string;
  body : string
}.

(** What a handler can change: the store and the mails handed to
    [sendEmail] so far. *)
Record World := {
  notifications : Store;
  outbox : list Email
}.

(** What a handler reads from outside: the two resolvers of
    [utils/httpClient.js] (each resolves to [null] on any failure) and the
    clock readings of its [storeNotification] call. *)
Record Env := {
  getUserContact : JsPrim → JsValue;
  getProgramDetails : JsPrim → JsValue;
  date_now : Z;
  new_date : Date
}.

(** A handler, run from the arrival of its event to its return.  What
    other handlers or requests do while it is suspended at an [await] is not
    interleaved here: the world it is given is the one it acts on. *)
Definition Handler := Env → JsObject → World → World.

(** [await sendEmail(to, subject, body)]: always succeeds. *)
Definition sendEmail (to_ : JsPrim) (subject_ body_ : string) (w : World) : World :=
  {| notifications := notifications w;
     outbox := outbox w ++ [ {| to := to_; subject := subject_; body := body_ |} ] |}.

(** The handlers' call of [storeNotification] on the process-wide map. *)
Definition store (env : Env) (userId : JsPrim) (notification : Draft) (w : World) : World :=
  {| notifications :=
       storeNotification (date_now env) (new_date env) userId notification (notifications w);
     outbox := outbox w |}.

Definition handleBookingCreated : Handler := λ env data w,
  let booking_id := get "booking_id" data in
  let client_id := get "client_id" data in
  let booking_date := get "booking_date" data in
  let start_time := get "start_time" data in
  let w :=
    sendEmail
      (JStr ("client-" +:+ ToString client_id +:+ "@fitsync.com"))
      "Booking Confirmation"
      ("Your booking for " +:+ ToString booking_date +:+ " at " +:+ ToString start_time +:+
       " has been confirmed. Booking ID: " +:+ ToString booking_id) w in
  store env client_id
    {| type := "booking_confirmation";
       category := "booking_confirmation";
       title := "Booking Confirmed";
       message := "Your session on " +:+ ToString booking_date +:+ " at " +:+
                  ToString start_time +:+ " has been booked successfully.";
       metadata := [("booking_id", booking_id); ("booking_date", booking_date);
                    ("start_time", start_time)] |} w.

Definition handleBookingCancelled : Handler := λ env data w,
  let booking_id := get "booking_id" data in
  let client_id := get "client_id" data in
  let reason := get "reason" data in
  let w :=
    sendEmail
      (JStr ("client-" +:+ ToString client_id +:+ "@fitsync.com"))
      "Booking Cancelled"
      ("Your booking has been cancelled. " +:+
       (if truthy reason then "Reason: " +:+ ToString reason else "")) w in
  store env client_id
    {| type := "booking_cancellation";
       category := "booking_reminder";
       title := "Booking Cancelled";
       message := "Your booking has been cancelled. " +:+ ToString (js_or reason (JStr ""));
       metadata := [("booking_id", booking_id)] |} w.

Definition handleProgramAssigned : Handler := λ env data w,
  let program_id := get "program_id" data in
  let client_id := get "client_id" data in
  let workout_plan_id := get "workout_plan_id" data in
  let diet_plan_id := get "diet_plan_id" data in
  let client := getUserContact env client_id in
  if negb (truthy_value client) then w else
  let program := getProgramDetails env program_id in
  let programName :=
    if truthy_value program
    then js_or (prop "name" program) (JStr "Training Program")
    else JStr "Training Program" in
  let w :=
    sendEmail
      (prop "email" client)
      "New Training Program Assigned"
      ("Hi " +:+ ToString (prop "first_name" client) +:+ "," +:+ nl +:+ nl +:+
       "Your trainer has assigned you a new program: " +:+ ToString programName +:+ nl +:+ nl +:+
       "Log in to view your program details and get started!") w in
  store env client_id
    {| type := "program_assigned";
       category := "program_assigned";
       title := "New Program Assigned";
       message := "Your trainer assigned you: " +:+ ToString programName;
       metadata := [("program_id", program_id); ("workout_plan_id", workout_plan_id);
                    ("diet_plan_id", diet_plan_id)] |} w.

Definition handleAchievementEarned : Handler := λ env data w,
  let achievement_id := get "achievement_id" data in
  let client_id := get "client_id" data in
  let type_ := get "type" data in
  let title_ := get "title" data in
  let description := get "description" data in
  let client := getUserContact env client_id in
  if negb (truthy_value client) then w else
  let w :=
    sendEmail
      (prop "email" client)
      "🎉 Achievement Unlocked!"
      ("Congratulations " +:+ ToString (prop "first_name" client) +:+ "!" +:+ nl +:+ nl +:+
       "You've earned a new achievement: " +:+ ToString title_ +:+ nl +:+ nl +:+
       ToString (js_or description (JStr "")) +:+ nl +:+ nl +:+
       "Keep up the great work!") w in
  store env client_id
    {| type := "achievement";
       category := "achievement";
       title := "Achievement Unlocked!";
       message := "Congratulations! You've earned: " +:+ ToString title_;
       metadata := [("achievement_id", achievement_id); ("type", type_)] |} w.

Definition handleProgramCompleted : Handler := λ env data w,
  let program_id := get "program_id" data in
  let client_id := get "client_id" data in
  let client := getUserContact env client_id in
  if negb (truthy_value client) then w else
  let w :=
    sendEmail
      (prop "email" client)
      "Program Completed!"
      ("Congratulations " +:+ ToString (prop "first_name" client) +:+ "!" +:+ nl +:+ nl +:+
       "You've successfully completed your training program!" +:+ nl +:+ nl +:+
       "Great work on finishing your program. Keep up the momentum!") w in
  store env client_id
    {| type := "program_completed";
       category := "program_assigned";
       title := "Program Completed!";
       message := "Congratulations on completing your training program!";
       metadata := [("program_id", program_id)] |} w.

Definition handleBookingCompleted : Handler := λ env data w,
  let booking_id := get "booking_id" data in
  let client_id := get "client_id" data in
  let workout_date := get "workout_date" data in
  let client := getUserContact env client_id in
  if negb (truthy_value client) then w else
  let w :=
    sendEmail
      (prop "email" client)
      "Session Completed"
      ("Hi " +:+ ToString (prop "first_name" client) +:+ "," +:+ nl +:+ nl +:+
       "Your training session on " +:+ ToString workout_date +:+
       " has been marked as complete." +:+ nl +:+ nl +:+
       "You can now log your workout details and track your progress!") w in
  store env client_id
    {| type := "booking_completed";
       category := "booking_confirmation";
       title := "Session Completed";
       message := "Your training session on " +:+ ToString workout_date +:+
                  " is complete. Log your workout!";
       metadata := [("booking_id", booking_id)] |} w.

Definition handleMilestoneReached : Handler := λ env data w,
  let client_id := get "client_id" data in
  let milestone_type := get "milestone_type" data in
  let achieved_value := get "achieved_value" data in
  let previous_value := get "previous_value" data in
  let client := getUserContact env client_id in
  if negb (truthy_value client) then w else
  let w :=
    sendEmail
      (prop "email" client)
      "🎯 Milestone Achieved!"
      ("Congratulations " +:+ ToString (prop "first_name" client) +:+ "!" +:+ nl +:+ nl +:+
       "You've reached a new milestone:" +:+ nl +:+
       ToString milestone_type +:+ ": " +:+ ToString achieved_value +:+ nl +:+ nl +:+
       "Progress from: " +:+ ToString previous_value +:+ " → " +:+ ToString achieved_value +:+
       nl +:+ nl +:+ "Keep up the amazing work!") w in
  store env client_id
    {| type := "milestone";
       category := "achievement";
       title := "Milestone Achieved!";
       message := "You've reached: " +:+ ToString milestone_type;
       metadata := data |} w.

(** The subscriptions of [startServer]: channel name to handler. *)
Definition subscriptions : list (string * Handler) :=
  [ ("booking.created", handleBookingCreated);
    ("booking.cancelled", handleBookingCancelled);
    ("booking.completed", handleBookingCompleted);
    ("program.assigned", handleProgramAssigned);
    ("program.completed", handleProgramCompleted);
    ("achievement.earned", handleAchievementEarned);
    ("milestone.reached", handleMilestoneReached) ].

Definition handler_of (channel : string) : option Handler :=
  (λ sub, snd (snd sub)) <$> list_find (λ sub, fst sub = channel) subscriptions.

(** An event published on [channel]: the subscribed handler runs; a channel
    nobody subscribed to reaches no handler. *)
Definition on_event (channel : string) : Handler := λ env data w,
  match handler_of channel with
  | Some handler => handler env data w
  | None => w
  end.

(** ** The notification API *)

(** The JSON bodies the four endpoints answer with. *)
Inductive Json :=
  | ok_list (data : list Notification)      (* { success: true, data: [...] } *)
  | ok_notification (data : Notification)   (* { success: true, data: {...} } *)
  | ok_message (text : string)              (* { success: true, message } *)
  | ok_count (count : nat)                  (* { success: true, data: { count } } *)
  | error (code text : string).             (* { success: false, error: { code, message } } *)

(** HTTP status and body. *)
Definition Response : Type := nat * Json.

Definition missing_user_id : Response :=
  (400, error "MISSING_USER_ID" "user_id query parameter required").

Definition not_found : Response :=
  (404, error "NOT_FOUND" "Notification not found").

(** [req.query.user_id]: [undefined] when the parameter is missing, the
    string given otherwise. *)
Definition query (user_id : option string) : JsPrim :=
  from_option JStr JUndefined user_id.

(** [n => n.id === id]. *)
Definition has_id (id_ : string) (n : Notification) : Prop := id n = id_.

#[global] Instance has_id_dec id_ n : Decision (has_id id_ n).
Proof. unfold has_id. apply _. Defined.

(** [array.find(n => n.id === id)]: the first match, here together with
    its index in the array ([find] returns the array's own element, not a
    copy); [None] for [undefined]. *)
Definition find (id_ : string) (l : list Notification) : option (nat * Notification) :=
  list_find (has_id id_) l.

(** [array.findIndex(n => n.id === id)]: the first match's index, [None]
    for [-1]. *)
Definition findIndex (id_ : string) (l : list Notification) : option nat :=
  fst <$> list_find (has_id id_) l.

(** [notification.read_at = new Date()]. *)
Definition set_read_at (now : Date) (n : Notification) : Notification :=
  {| id := id n; draft := draft n; read_at := Some now; created_at := created_at n |}.

(** [GET /api/notifications]. *)
Definition get_notifications (user_id : option string) (notifications : Store) : Response :=
  let userId := query user_id in
  if negb (truthy userId) then missing_user_id else
  let userNotifications := get_or_empty userId notifications in
  (200, ok_list userNotifications).

(** [PUT /api/notifications/:id/read].  [now] is the reading of
    [new Date()].  The assignment mutates the object [find] returned, which
    is the array's own element at the position of the first match. *)
Definition put_notification_read (now : Date) (id_ : string) (user_id : option string)
    (notifications : Store) : Response * Store :=
  let userId := query user_id in
  if negb (truthy userId) then (missing_user_id, notifications) else
  let userNotifications := get_or_empty userId notifications in
  match find id_ userNotifications with
  | None => (not_found, notifications)
  | Some (index, notification) =>
      let notification := set_read_at now notification in
      ((200, ok_notification notification),
       <[userId := <[index := notification]> userNotifications]> notifications)
  end.

(** [DELETE /api/notifications/:id]: [splice(index, 1)] on the user's
    array. *)
Definition delete_notification (id_ : string) (user_id : option string)
    (notifications : Store) : Response * Store :=
  let userId := query user_id in
  if negb (truthy userId) then (missing_user_id, notifications) else
  match notifications !! userId with
  | Some userNotifications =>
      match findIndex id_ userNotifications with
      | Some index =>
          ((200, ok_message "Notification deleted"),
           <[userId := delete index userNotifications]> notifications)
      | None => (not_found, notifications)
      end
  | None => (not_found, notifications)
  end.

(** [n => !n.read_at]: [read_at] is [null] or a [Date] object, and every
    object is truthy. *)
Definition unread (n : Notification) : Prop := read_at n = None.

#[global] Instance unread_dec n : Decision (unread n).
Proof. unfold unread. apply _. Defined.

(** [GET /api/notifications/unread/count]. *)
Definition get_unread_count (user_id : option string) (notifications : Store) : Response :=
  let userId := query user_id in
  if negb (truthy userId) then missing_user_id else
  let userNotifications := get_or_empty userId notifications in
  let unreadCount := length (filter unread userNotifications) in
  (200, ok_count unreadCount).

(** ** Runs of store operations *)

(** One call of [storeNotification], with the clock readings it takes. *)
Record Append := {
  userId : JsPrim;
  now : Z;
  created : Date;
  notification : Draft
}.

(** The record an append call pushes. *)
Definition pushed (c : Append) : Notification :=
  {| id := now_toString (now c);
     draft := notification c;
     read_at := None;
     created_at := created c |}.

Definition append (c : Append) (notifications : Store) : Store :=
  storeNotification (now c) (created c) (userId c) (notification c) notifications.

(** The calls in the order they are made. *)
Definition appends (calls : list Append) (notifications : Store) : Store :=
  foldl (λ s c, append c s) notifications calls.

(** The operations that reach the store: a handler's append and the two
    mutating endpoints. *)
Inductive Op :=
  | op_append (c : Append)
  | op_markRead (now : Date) (id_ : string) (user_id : option string)
  | op_delete (id_ : string) (user_id : option string).

Definition step (op : Op) (notifications : Store) : Store :=
  match op with
  | op_append c => append c notifications
  | op_markRead now id_ user_id => snd (put_notification_read now id_ user_id notifications)
  | op_delete id_ user_id => snd (delete_notification id_ user_id notifications)
  end.

Definition run (ops : list Op) (notifications : Store) : Store :=
  foldl (λ s op, step op s) notifications ops.

(** Where the record at index [i] of user [u]'s array is after [op]:
    only a successful delete on that array moves or removes records. *)
Definition index_after (op : Op) (notifications : Store) (u : JsPrim) (i : nat) : option nat :=
  match op with
  | op_delete id_ user_id =>
      if decide (query user_id = u ∧ truthy u = true) then
        match findIndex id_ (get_or_empty u notifications) with
        | Some k =>
            if decide (i < k) then Some i
            else if decide (i = k) then None
            else Some (pred i)
        | None => Some i
        end
      else Some i
  | _ => Some i
  end.

Fixpoint index_after_run (ops : list Op) (notifications : Store) (u : JsPrim) (i : nat)
    : option nat :=
  match ops with
  | [] => Some i
  | op :: rest =>
      match index_after op notifications u i with
      | Some j => index_after_run rest (step op notifications) u j
      | None => None
      end
  end.

(** A one-way [read_at]: from one state of a record to a later one the
    field is left alone or goes from null to a timestamp. *)
Definition one_way (before after : option Date) : Prop :=
  after = before ∨ (before = None ∧ is_Some after).

(** The number of entries whose [read_at] is null, counted entry by
    entry. *)
Fixpoint count_null_read_at (l : list Notification) : nat :=
  match l with
  | [] => 0
  | n :: rest =>
      match read_at n with
      | None => S (count_null_read_at rest)
      | Some _ => count_null_read_at rest
      end
  end.

(** ** Reading a run *)

(** What a record is apart from its [read_at]. *)
Definition content (n : Notification) : string * Draft * Date :=
  (id n, draft n, created_at n).

(** The user whose array an operation is aimed at. *)
Definition target (op : Op) : JsPrim :=
  match op with
  | op_append c => userId c
  | op_markRead _ _ user_id => query user_id
  | op_delete _ user_id => query user_id
  end.

Definition is_delete (op : Op) : bool :=
  match op with
  | op_delete _ _ => true
  | _ => false
  end.

(** The records the appends of a run push onto [u]'s array, in call
    order. *)
Definition appended_to (u : JsPrim) (ops : list Op) : list Notification :=
  omap (λ op, match op with
              | op_append c => if decide (userId c = u) then Some (pushed c) else None
              | _ => None
              end) ops.

(** ** The handlers side by side *)

(** The [type], [category] and [title] literals of each handler's
    notification, by channel. *)
Definition literals (channel : string) : option (string * string * string) :=
  if String.eqb channel "booking.created"
  then Some ("booking_confirmation", "booking_confirmation", "Booking Confirmed")
  else if String.eqb channel "booking.cancelled"
  then Some ("booking_cancellation", "booking_reminder", "Booking Cancelled")
  else if String.eqb channel "booking.completed"
  then Some ("booking_completed", "booking_confirmation", "Session Completed")
  else if String.eqb channel "program.assigned"
  then Some ("program_assigned", "program_assigned", "New Program Assigned")
  else if String.eqb channel "program.completed"
  then Some ("program_completed", "program_assigned", "Program Completed!")
  else if String.eqb channel "achievement.earned"
  then Some ("achievement", "achievement", "Achievement Unlocked!")
  else if String.eqb channel "milestone.reached"
  then Some ("milestone", "achievement", "Milestone Achieved!")
  else None.

(** The channels whose handler resolves the client's contact before doing
    anything else. *)
Definition resolves_contact (channel : string) : bool :=
  bool_decide (channel ∈ ["booking.completed"; "program.assigned"; "program.completed";
                          "achievement.earned"; "milestone.reached"]).

(** ** The resolvers of [utils/httpClient.js] *)

Module httpClient.

(** A parsed response body, [response.data]: a primitive or an object whose
    properties hold primitives or flat objects. *)
Inductive Body :=
  | body_prim (p : JsPrim)
  | body_obj (fields : list (string * JsValue)).

(** How a request on an axios instance settles: rejected (timeout after
    5000 ms, connection failure, status outside 2xx) with the error's
    message, or fulfilled with a response. *)
Inductive Settled :=
  | rejected (message : string)
  | fulfilled (data : Body).

(** The three axios instances; each field is the instance's [get(path)]. *)
Record Clients := {
  userServiceClient : string → Settled;
  trainingServiceClient : string → Settled;
  scheduleServiceClient : string → Settled
}.

(** A block that returns a value or throws. *)
Inductive Completion (A : Type) :=
  | returns (a : A)
  | throws (thrown : string).
Arguments returns {A} a.
Arguments throws {A} thrown.

#[global] Instance Completion_ret : MRet Completion := λ A a, returns a.

#[global] Instance Completion_bind : MBind Completion := λ A B f c,
  match c with
  | returns a => f a
  | throws thrown => throws thrown
  end.

(** [try { block } catch (error) { handler }]. *)
Definition try_catch {A} (block : Completion A) (handler : string → Completion A)
    : Completion A :=
  match block with
  | returns a => returns a
  | throws thrown => handler thrown
  end.

(** [await client.get(path)]: a rejected request throws at the [await]. *)
Definition await (settled : Settled) : Completion Body :=
  match settled with
  | fulfilled response_data => returns response_data
  | rejected message => throws message
  end.

Fixpoint own (name : string) (fields : list (string * JsValue)) : JsValue :=
  match fields with
  | [] => VPrim JUndefined
  | (k, v) :: rest => if String.eqb k name then v else own name rest
  end.

(** [response.data.data]: reading a property of [null] or [undefined]
    throws a TypeError; other primitives have no [data]. *)
Definition data_of (response_data : Body) : Completion JsValue :=
  match response_data with
  | body_prim JNull => throws "Cannot read properties of null (reading 'data')"
  | body_prim JUndefined => throws "Cannot read properties of undefined (reading 'data')"
  | body_prim _ => returns (VPrim JUndefined)
  | body_obj fields => returns (own "data" fields)
  end.

Definition getUserContact (c : Clients) (userId : JsPrim) : Completion JsValue :=
  try_catch
    (response_data ← await (userServiceClient c ("/api/users/" +:+ ToString userId));
     data_of response_data)
    (λ _, returns (VPrim JNull)).

Definition getProgramDetails (c : Clients) (programId : JsPrim) : Completion JsValue :=
  try_catch
    (response_data ← await (trainingServiceClient c ("/api/programs/" +:+ ToString programId));
     data_of response_data)
    (λ _, returns (VPrim JNull)).

Definition getBookingDetails (c : Clients) (bookingId : JsPrim) : Completion JsValue :=
  try_catch
    (response_data ← await (scheduleServiceClient c ("/api/bookings/" +:+ ToString bookingId));
     data_of response_data)
    (λ _, returns (VPrim JNull)).

End httpClient.

(** The three resolvers, each with the axios instance it asks and the path
    it puts before the id. *)
Definition resolver_table
    : list ((httpClient.Clients → JsPrim → httpClient.Completion JsValue)
            * (httpClient.Clients → string → httpClient.Settled) * string) :=
  [ (httpClient.getUserContact, httpClient.userServiceClient, "/api/users/");
    (httpClient.getProgramDetails, httpClient.trainingServiceClient, "/api/programs/");
    (httpClient.getBookingDetails, httpClient.scheduleServiceClient, "/api/bookings/") ].

(** The handlers' environment is the one these clients give: what a handler
    gets from [await getUserContact(id)] and [await getProgramDetails(id)] is
    what the resolver returns. *)
Definition served_by (c : httpClient.Clients) (env : Env) : Prop :=
  ∀ id_ : JsPrim,
    httpClient.getUserContact c id_ = httpClient.returns (getUserContact env id_)
    ∧ httpClient.getProgramDetails c id_ = httpClient.returns (getProgramDetails env id_).

(** * Properties *)

(** ** Appending *)

Section store_lemmas.
Implicit Types (s : Store) (u : JsPrim) (l : list Notification).

Lemma get_or_empty_Some s u l : s !! u = Some l → get_or_empty u s = l.
Proof. unfold get_or_empty. by intros ->. Qed.

Lemma get_or_empty_None s u : s !! u = None → get_or_empty u s = [].
Proof. unfold get_or_empty. by intros ->. Qed.

Lemma get_or_empty_insert s u l : get_or_empty u (<[u := l]> s) = l.
Proof. unfold get_or_empty. by rewrite lookup_insert_eq. Qed.

Lemma get_or_empty_insert_ne s u u' l :
  u' ≠ u → get_or_empty u (<[u' := l]> s) = get_or_empty u s.
Proof. intros. unfold get_or_empty. by rewrite lookup_insert_ne. Qed.

Lemma get_or_empty_alter f s u u' :
  get_or_empty u (alter f u' s) =
    if decide (u' = u) then from_option f [] (s !! u) else get_or_empty u s.
Proof.
  unfold get_or_empty. destruct (decide (u' = u)) as [->|Hne].
  - rewrite lookup_alter_eq. by destruct (s !! u).
  - by rewrite lookup_alter_ne.
Qed.

(** The array of [c]'s user grows by the pushed record at its end; no
    other array changes. *)
Lemma append_get c s u :
  get_or_empty u (append c s) =
    if decide (userId c = u) then get_or_empty u s ++ [pushed c] else get_or_empty u s.
Proof.
  unfold append, storeNotification, pushed.
  rewrite get_or_empty_alter.
  destruct (decide (userId c = u)) as [<-|Hne].
  - destruct (s !! userId c) as [l|] eqn:Hl.
    + by rewrite Hl, (get_or_empty_Some _ _ _ Hl).
    + by rewrite lookup_insert_eq, (get_or_empty_None _ _ Hl).
  - destruct (s !! userId c); [done|]. by rewrite get_or_empty_insert_ne.
Qed.

Lemma appends_get calls s u :
  get_or_empty u (appends calls s) =
    get_or_empty u s ++ (pushed <$> filter (λ c, userId c = u) calls).
Proof.
  unfold appends. revert s.
  induction calls as [|c calls IH]; intros s; simpl.
  - by rewrite app_nil_r.
  - rewrite IH, append_get, filter_cons.
    destruct (decide (userId c = u)); [|done].
    by rewrite fmap_cons, <-app_assoc.
Qed.

Lemma get_or_empty_empty u : get_or_empty u (∅ : Store) = [].
Proof. apply get_or_empty_None, lookup_empty. Qed.
End store_lemmas.

Lemma truthy_JStr u : u ≠ "" → truthy (JStr u) = true.
Proof.
  intros Hu. simpl. apply negb_true_iff, String.eqb_neq. done.
Qed.

(** Step past an endpoint's [if (!userId)] for a request whose [user_id] is
    the non-empty string of [Hu]. *)
Ltac past_user_id_check Hu :=
  change (query (Some ?u)) with (JStr u);
  rewrite (truthy_JStr _ Hu); simpl negb; cbv iota zeta.

(** C6: the list endpoint answers 200 with the user's appended
    notifications, exactly and in call order, whatever the drafts hold (after
    whatever the array held before); interleaved appends for other users
    leave no trace in it.  A user without an array gets 200 and the empty
    list. *)
Theorem list_returns_appends_in_call_order (calls : list Append) (s : Store) (u : string) :
  u ≠ "" →
  get_notifications (Some u) (appends calls s) =
    (200, ok_list (get_or_empty (JStr u) s ++
                   (pushed <$> filter (λ c, userId c = JStr u) calls)))
  ∧ get_notifications (Some u) (appends calls ∅) =
    (200, ok_list (pushed <$> filter (λ c, userId c = JStr u) calls))
  ∧ (s !! JStr u = None → get_notifications (Some u) s = (200, ok_list [])).
Proof.
  intros Hu. unfold get_notifications.
  past_user_id_check Hu.
  repeat split.
  - by rewrite appends_get.
  - by rewrite appends_get, get_or_empty_empty.
  - intros Hnone. by rewrite (get_or_empty_None _ _ Hnone).
Qed.

Lemma list_returns_appends_witness :
  let d := {| type := "achievement"; category := "achievement"; title := "T";
              message := "m"; metadata := [] |} in
  let c1 := {| userId := JStr "u1"; now := 1700000000000; created := 1700000000000;
               notification := d |} in
  let c2 := {| userId := JStr "u2"; now := 1700000000005; created := 1700000000005;
               notification := d |} in
  let c3 := {| userId := JStr "u1"; now := 1700000000009; created := 1700000000009;
               notification := d |} in
  "u1" ≠ "" ∧
  get_notifications (Some "u1") (appends [c1; c2; c3] ∅) = (200, ok_list [pushed c1; pushed c3]).
Proof.
  intros d c1 c2 c3.
  assert (Hu : "u1" ≠ "") by discriminate.
  split; [exact Hu|].
  exact (proj1 (proj2 (list_returns_appends_in_call_order [c1; c2; c3] ∅ "u1" Hu))).
Defined.

(** ** Ids *)

#[global] Instance now_toString_inj : Inj (=) (=) now_toString.
Proof. unfold now_toString. apply _. Qed.

(** The ids in a user's array after a run of appends on the empty store are
    the renderings of the [Date.now()] readings of that user's calls. *)
Lemma appends_ids calls u :
  id <$> get_or_empty u (appends calls ∅) =
    now_toString <$> (now <$> filter (λ c, userId c = u) calls).
Proof.
  rewrite appends_get, get_or_empty_empty, app_nil_l.
  rewrite <-!list_fmap_compose. done.
Qed.

(** C1, as the code has it: after any run of appends from the empty store,
    the ids in a user's array are pairwise distinct provided the [Date.now()]
    readings taken by that user's appends are pairwise distinct. *)
Theorem ids_distinct_when_clock_readings_distinct (calls : list Append) (u : JsPrim) :
  NoDup (now <$> filter (λ c, userId c = u) calls) →
  NoDup (id <$> get_or_empty u (appends calls ∅)).
Proof.
  intros Hnodup. rewrite appends_ids.
  by apply (NoDup_fmap_2 now_toString).
Qed.

Lemma ids_distinct_witness :
  let d := {| type := "achievement"; category := "achievement"; title := "T";
              message := "m"; metadata := [] |} in
  let c1 := {| userId := JStr "u1"; now := 1700000000000; created := 1700000000000;
               notification := d |} in
  let c2 := {| userId := JStr "u1"; now := 1700000000001; created := 1700000000001;
               notification := d |} in
  NoDup (now <$> filter (λ c, userId c = JStr "u1") [c1; c2]) ∧
  NoDup (id <$> get_or_empty (JStr "u1") (appends [c1; c2] ∅)).
Proof.
  intros d c1 c2.
  assert (Hnodup : NoDup (now <$> filter (λ c, userId c = JStr "u1") [c1; c2])).
  { change (NoDup [1700000000000%Z; 1700000000001%Z]).
    apply (bool_decide_unpack _). vm_compute. exact I. }
  split; [exact Hnodup|].
  exact (ids_distinct_when_clock_readings_distinct [c1; c2] (JStr "u1") Hnodup).
Defined.

(** Two appends for one user within the same millisecond: both records get
    the id ["1700000000000"]. *)
Lemma same_millisecond_appends_share_id :
  let d1 := {| type := "booking_confirmation"; category := "booking_confirmation";
               title := "Booking Confirmed"; message := "first"; metadata := [] |} in
  let d2 := {| type := "achievement"; category := "achievement";
               title := "Achievement Unlocked!"; message := "second"; metadata := [] |} in
  let c1 := {| userId := JStr "u1"; now := 1700000000000; created := 1700000000000;
               notification := d1 |} in
  let c2 := {| userId := JStr "u1"; now := 1700000000000; created := 1700000000000;
               notification := d2 |} in
  id <$> get_or_empty (JStr "u1") (appends [c1; c2] ∅) = ["1700000000000"; "1700000000000"]
  ∧ ¬ NoDup (id <$> get_or_empty (JStr "u1") (appends [c1; c2] ∅)).
Proof.
  intros d1 d2 c1 c2.
  assert (Hids : id <$> get_or_empty (JStr "u1") (appends [c1; c2] ∅)
                 = ["1700000000000"; "1700000000000"]) by (vm_compute; reflexivity).
  split; [exact Hids|].
  rewrite Hids. intros Hnodup. apply NoDup_cons_1_1 in Hnodup.
  apply Hnodup. left.
Qed.

(** ** Event handlers *)

Lemma get_absent name (o : JsObject) : name ∉ o.*1 → get name o = JUndefined.
Proof.
  induction o as [|[k v] o IH]; [done|].
  rewrite fmap_cons, not_elem_of_cons. intros [Hne Hnotin]. simpl.
  destruct (String.eqb_spec k name) as [->|_]; [done|]. by apply IH.
Qed.

Lemma store_get env u d w u' :
  get_or_empty u' (notifications (store env u d w)) =
    if decide (u = u')
    then get_or_empty u' (notifications w) ++
         [ {| id := now_toString (date_now env); draft := d; read_at := None;
              created_at := new_date env |} ]
    else get_or_empty u' (notifications w).
Proof.
  unfold store. cbn [notifications].
  apply (append_get {| userId := u; now := date_now env; created := new_date env;
                       notification := d |}).
Qed.

Lemma on_event_booking_cancelled : on_event "booking.cancelled" = handleBookingCancelled.
Proof. reflexivity. Qed.

Lemma on_event_booking_completed : on_event "booking.completed" = handleBookingCompleted.
Proof. reflexivity. Qed.

Lemma on_event_program_assigned : on_event "program.assigned" = handleProgramAssigned.
Proof. reflexivity. Qed.

Lemma on_event_program_completed : on_event "program.completed" = handleProgramCompleted.
Proof. reflexivity. Qed.

Lemma on_event_achievement_earned : on_event "achievement.earned" = handleAchievementEarned.
Proof. reflexivity. Qed.

Lemma on_event_milestone_reached : on_event "milestone.reached" = handleMilestoneReached.
Proof. reflexivity. Qed.

(** C2: on each of the five channels whose handler resolves the client
    first, a [null] from [getUserContact] makes the handler return with the
    world as it was: no mail handed to [sendEmail], and the store, hence
    every user's array, unchanged. *)
Theorem absent_contact_leaves_world_unchanged
    (channel : string) (env : Env) (data : JsObject) (w : World) :
  channel ∈ ["booking.completed"; "program.assigned"; "program.completed";
             "achievement.earned"; "milestone.reached"] →
  getUserContact env (get "client_id" data) = VPrim JNull →
  on_event channel env data w = w
  ∧ outbox (on_event channel env data w) = outbox w
  ∧ ∀ u, notifications (on_event channel env data w) !! u = notifications w !! u.
Proof.
  intros Hchannel Hnull.
  assert (Hsame : on_event channel env data w = w).
  { repeat (apply elem_of_cons in Hchannel as [->|Hchannel]);
      [ rewrite on_event_booking_completed; unfold handleBookingCompleted
      | rewrite on_event_program_assigned; unfold handleProgramAssigned
      | rewrite on_event_program_completed; unfold handleProgramCompleted
      | rewrite on_event_achievement_earned; unfold handleAchievementEarned
      | rewrite on_event_milestone_reached; unfold handleMilestoneReached
      | by apply elem_of_nil in Hchannel ];
      cbv zeta; by rewrite Hnull. }
  by rewrite Hsame.
Qed.

Lemma absent_contact_witness :
  let env := {| getUserContact := λ _, VPrim JNull;
                getProgramDetails := λ _, VPrim JNull;
                date_now := 1700000000000; new_date := 1700000000000 |} in
  let data := [("achievement_id", JStr "a1"); ("client_id", JStr "u1");
               ("type", JStr "streak"); ("title", JStr "Ten sessions")] in
  let w := {| notifications := ∅; outbox := [] |} in
  "achievement.earned" ∈ ["booking.completed"; "program.assigned"; "program.completed";
                          "achievement.earned"; "milestone.reached"]
  ∧ getUserContact env (get "client_id" data) = VPrim JNull
  ∧ on_event "achievement.earned" env data w = w.
Proof.
  intros env data w.
  assert (Hin : "achievement.earned" ∈ ["booking.completed"; "program.assigned";
                  "program.completed"; "achievement.earned"; "milestone.reached"]).
  { do 3 apply list_elem_of_further. apply list_elem_of_here. }
  assert (Hnull : getUserContact env (get "client_id" data) = VPrim JNull) by reflexivity.
  split; [exact Hin|]. split; [exact Hnull|].
  exact (proj1 (absent_contact_leaves_world_unchanged "achievement.earned" env data w Hin Hnull)).
Defined.

(** C8: a booking.cancelled payload without a [reason] property makes the
    handler push, at the end of the array of the payload's [client_id], a
    notification whose message is exactly ["Your booking has been cancelled. "],
    trailing space included, and that message has no ["Reason:"] in it. *)
Theorem booking_cancelled_without_reason (env : Env) (data : JsObject) (w : World) :
  "reason" ∉ data.*1 →
  let stored :=
    {| id := now_toString (date_now env);
       draft := {| type := "booking_cancellation";
                   category := "booking_reminder";
                   title := "Booking Cancelled";
                   message := "Your booking has been cancelled. ";
                   metadata := [("booking_id", get "booking_id" data)] |};
       read_at := None;
       created_at := new_date env |} in
  get_or_empty (get "client_id" data)
    (notifications (on_event "booking.cancelled" env data w)) =
    get_or_empty (get "client_id" data) (notifications w) ++ [stored]
  ∧ message (draft stored) = "Your booking has been cancelled. "
  ∧ includes "Reason:" (message (draft stored)) = false.
Proof.
  intros Hreason stored.
  rewrite on_event_booking_cancelled. unfold handleBookingCancelled. cbv zeta.
  rewrite (get_absent "reason" data Hreason).
  rewrite store_get, decide_True by done.
  split; [|split]; reflexivity.
Qed.

Lemma booking_cancelled_without_reason_witness :
  let env := {| getUserContact := λ _, VPrim JNull;
                getProgramDetails := λ _, VPrim JNull;
                date_now := 1700000000000; new_date := 1700000000002 |} in
  let data := [("booking_id", JStr "b1"); ("client_id", JStr "u1")] in
  let w := {| notifications := ∅; outbox := [] |} in
  ("reason" ∉ data.*1)
  ∧ get_or_empty (JStr "u1") (notifications (on_event "booking.cancelled" env data w)) =
    [ {| id := "1700000000000";
         draft := {| type := "booking_cancellation";
                     category := "booking_reminder";
                     title := "Booking Cancelled";
                     message := "Your booking has been cancelled. ";
                     metadata := [("booking_id", JStr "b1")] |};
         read_at := None;
         created_at := 1700000000002 |} ].
Proof.
  intros env data w.
  assert (Hreason : "reason" ∉ data.*1).
  { apply (bool_decide_unpack _). vm_compute. exact I. }
  split; [exact Hreason|].
  exact (proj1 (booking_cancelled_without_reason env data w Hreason)).
Defined.

(** What [programName] is when the program was not found or has no usable
    name. *)
Lemma programName_fallback (program : JsValue) :
  truthy_value program = false ∨ truthy (prop "name" program) = false →
  (if truthy_value program
   then js_or (prop "name" program) (JStr "Training Program")
   else JStr "Training Program") = JStr "Training Program".
Proof.
  intros [Hfalsy|Hname].
  - by rewrite Hfalsy.
  - unfold js_or. rewrite Hname. by destruct (truthy_value program).
Qed.

(** C9: on program.assigned, when the client lookup succeeds and the
    program lookup gives [null], or gives a program without a [name]
    property, the handler still pushes a notification at the end of the
    client's array, and its message contains ["Training Program"]. *)
Theorem program_assigned_falls_back_to_training_program
    (env : Env) (data : JsObject) (w : World) :
  truthy_value (getUserContact env (get "client_id" data)) = true →
  (getProgramDetails env (get "program_id" data) = VPrim JNull
   ∨ ∃ program, getProgramDetails env (get "program_id" data) = VObj program
                ∧ "name" ∉ program.*1) →
  ∃ stored,
    get_or_empty (get "client_id" data)
      (notifications (on_event "program.assigned" env data w)) =
      get_or_empty (get "client_id" data) (notifications w) ++ [stored]
    ∧ message (draft stored) = "Your trainer assigned you: Training Program"
    ∧ includes "Training Program" (message (draft stored)) = true.
Proof.
  intros Hclient Hprogram.
  rewrite on_event_program_assigned. unfold handleProgramAssigned. cbv zeta.
  rewrite Hclient. simpl negb. cbv iota.
  rewrite programName_fallback.
  - rewrite store_get, decide_True by done.
    eexists. split; [reflexivity|]. split; reflexivity.
  - destruct Hprogram as [->|(program & -> & Hname)]; [by left|right].
    simpl. by rewrite (get_absent "name" program Hname).
Qed.

Lemma program_assigned_fallback_witness :
  let env := {| getUserContact := λ _, VObj [("first_name", JStr "John");
                                             ("email", JStr "john.doe@example.com")];
                getProgramDetails := λ _, VPrim JNull;
                date_now := 1700000000000; new_date := 1700000000002 |} in
  let data := [("program_id", JStr "program-123"); ("client_id", JStr "client-456");
               ("workout_plan_id", JStr "workout-111"); ("diet_plan_id", JStr "diet-222")] in
  let w := {| notifications := ∅; outbox := [] |} in
  truthy_value (getUserContact env (get "client_id" data)) = true
  ∧ getProgramDetails env (get "program_id" data) = VPrim JNull
  ∧ ∃ stored,
      get_or_empty (get "client_id" data)
        (notifications (on_event "program.assigned" env data w)) =
        get_or_empty (get "client_id" data) (notifications w) ++ [stored]
      ∧ message (draft stored) = "Your trainer assigned you: Training Program"
      ∧ includes "Training Program" (message (draft stored)) = true.
Proof.
  intros env data w.
  assert (Hclient : truthy_value (getUserContact env (get "client_id" data)) = true)
    by reflexivity.
  assert (Hprogram : getProgramDetails env (get "program_id" data) = VPrim JNull)
    by reflexivity.
  split; [exact Hclient|]. split; [exact Hprogram|].
  exact (program_assigned_falls_back_to_training_program env data w Hclient
           (or_introl Hprogram)).
Defined.

(** ** Finding by id *)

Section find_lemmas.
Implicit Types (l : list Notification) (n : Notification).

Lemma find_first id_ l1 n l2 :
  Forall (λ m, id m ≠ id_) l1 → id n = id_ →
  find id_ (l1 ++ n :: l2) = Some (length l1, n).
Proof.
  intros Hbefore Hn. apply list_find_Some. split_and!.
  - by apply list_lookup_middle.
  - done.
  - intros j m Hj Hlt. rewrite lookup_app_l in Hj by done.
    by apply (Forall_lookup_1 _ _ _ _ Hbefore Hj).
Qed.

Lemma find_split id_ l i n :
  find id_ l = Some (i, n) →
  ∃ l1 l2, l = l1 ++ n :: l2 ∧ length l1 = i ∧ Forall (λ m, id m ≠ id_) l1 ∧ id n = id_.
Proof.
  intros (Hi & Hn & Hleast)%list_find_Some.
  exists (take i l), (drop (S i) l). split_and!.
  - by rewrite take_drop_middle.
  - apply length_take_le. apply lookup_lt_Some in Hi. lia.
  - apply Forall_lookup. intros j m Hj.
    apply lookup_take_Some in Hj as [Hj Hlt]. by apply (Hleast j m).
  - done.
Qed.

Lemma find_present id_ l n : n ∈ l → id n = id_ → is_Some (find id_ l).
Proof. intros Hin Hn. by apply (list_find_elem_of _ l n). Qed.

Lemma find_absent id_ l : (∀ n, n ∈ l → id n ≠ id_) → find id_ l = None.
Proof. intros Hall. apply list_find_None, Forall_forall. exact Hall. Qed.

Lemma findIndex_find id_ l : findIndex id_ l = fst <$> find id_ l.
Proof. done. Qed.
End find_lemmas.

(** ** The mutating endpoints, case by case *)

Section endpoint_lemmas.
Implicit Types (s : Store) (l : list Notification) (n : Notification).

Lemma put_read_found now id_ u s l1 n l2 :
  u ≠ "" →
  get_or_empty (JStr u) s = l1 ++ n :: l2 →
  Forall (λ m, id m ≠ id_) l1 → id n = id_ →
  put_notification_read now id_ (Some u) s =
    ((200, ok_notification (set_read_at now n)),
     <[JStr u := l1 ++ set_read_at now n :: l2]> s).
Proof.
  intros Hu Hl Hbefore Hn. unfold put_notification_read.
  past_user_id_check Hu.
  rewrite Hl, (find_first id_ l1 n l2 Hbefore Hn).
  do 2 f_equal.
  replace (length l1) with (length l1 + 0) by lia.
  by rewrite insert_app_r.
Qed.

Lemma put_read_missing now id_ u s :
  (∀ n, n ∈ get_or_empty (JStr u) s → id n ≠ id_) →
  put_notification_read now id_ (Some u) s =
    (if truthy (JStr u) then not_found else missing_user_id, s).
Proof.
  intros Hall. unfold put_notification_read.
  change (query (Some u)) with (JStr u).
  destruct (truthy (JStr u)); [|done]. simpl negb. cbv iota zeta.
  by rewrite (find_absent _ _ Hall).
Qed.

Lemma delete_found id_ u s l1 n l2 :
  u ≠ "" →
  s !! JStr u = Some (l1 ++ n :: l2) →
  Forall (λ m, id m ≠ id_) l1 → id n = id_ →
  delete_notification id_ (Some u) s =
    ((200, ok_message "Notification deleted"), <[JStr u := l1 ++ l2]> s).
Proof.
  intros Hu Hl Hbefore Hn. unfold delete_notification.
  past_user_id_check Hu.
  rewrite Hl, findIndex_find, (find_first id_ l1 n l2 Hbefore Hn). simpl.
  by rewrite delete_middle.
Qed.

Lemma delete_missing id_ u s :
  u ≠ "" →
  (∀ n, n ∈ get_or_empty (JStr u) s → id n ≠ id_) →
  delete_notification id_ (Some u) s = (not_found, s).
Proof.
  intros Hu Hall. unfold delete_notification.
  past_user_id_check Hu.
  destruct (s !! JStr u) as [l|] eqn:Hl; [|done].
  rewrite (get_or_empty_Some _ _ _ Hl) in Hall.
  by rewrite findIndex_find, (find_absent _ _ Hall).
Qed.
End endpoint_lemmas.

(** ** Mark as read *)



(** ** Delete and duplicates *)

(** C5: when some entry of the user's array has the id, the delete endpoint
    answers 200 and the array loses exactly one entry, which has that id, the
    entries before and after it staying in their order; from [A; B; C] with
    pairwise distinct ids deleting [B]'s id leaves [A; C] and deleting [A]'s
    leaves [B; C].  When no entry has the id (or the user has no array) it
    answers 404 NOT_FOUND and the store is unchanged. *)
Theorem delete_removes_one_and_keeps_order (id_ : string) (u : string) (s : Store) :
  u ≠ "" →
  (∀ l present, s !! JStr u = Some l → present ∈ l → id present = id_ →
     ∃ l1 n l2,
       l = l1 ++ n :: l2 ∧ id n = id_
       ∧ delete_notification id_ (Some u) s =
           ((200, ok_message "Notification deleted"), <[JStr u := l1 ++ l2]> s))
  ∧ (∀ A B C, s !! JStr u = Some [A; B; C] → id A ≠ id B → id B ≠ id C → id A ≠ id C →
       snd (delete_notification (id B) (Some u) s) !! JStr u = Some [A; C]
       ∧ snd (delete_notification (id A) (Some u) s) !! JStr u = Some [B; C])
  ∧ ((∀ n, n ∈ get_or_empty (JStr u) s → id n ≠ id_) →
       delete_notification id_ (Some u) s = (not_found, s)).
Proof.
  intros Hu. split_and!.
  - intros l present Hl Hin Hid.
    destruct (find_present id_ l present Hin Hid) as [[i n] Hfind].
    destruct (find_split _ _ _ _ Hfind) as (l1 & l2 & -> & _ & Hbefore & Hn).
    exists l1, n, l2. split_and!; [done..|].
    by apply (delete_found id_ u s l1 n l2).
  - intros A B C Hl HAB HBC HAC. split.
    + rewrite (delete_found (id B) u s [A] B [C] Hu Hl); [|by repeat constructor|done].
      cbn [snd]. by rewrite lookup_insert_eq.
    + rewrite (delete_found (id A) u s [] A [B; C] Hu Hl); [|by constructor|done].
      cbn [snd]. by rewrite lookup_insert_eq.
  - intros Hall. by apply delete_missing.
Qed.

Lemma delete_witness :
  let d := {| type := "achievement"; category := "achievement"; title := "T";
              message := "m"; metadata := [] |} in
  let A := {| id := "1700000000000"; draft := d; read_at := None;
              created_at := 1700000000000 |} in
  let B := {| id := "1700000000007"; draft := d; read_at := None;
              created_at := 1700000000007 |} in
  let C := {| id := "1700000000009"; draft := d; read_at := None;
              created_at := 1700000000009 |} in
  let s : Store := {[ JStr "u1" := [A; B; C] ]} in
  "u1" ≠ ""
  ∧ snd (delete_notification "1700000000007" (Some "u1") s) !! JStr "u1" = Some [A; C]
  ∧ snd (delete_notification "1700000000000" (Some "u1") s) !! JStr "u1" = Some [B; C].
Proof.
  intros d A B C s.
  assert (Hu : "u1" ≠ "") by discriminate.
  split; [exact Hu|].
  refine (proj1 (proj2 (delete_removes_one_and_keeps_order "" "u1" s Hu)) A B C _ _ _ _).
  - reflexivity.
  - discriminate.
  - discriminate.
  - discriminate.
Defined.

(** C10: in an array where the first entry carrying the id sits at some
    position and later entries may carry the same id, mark-read sets the
    [read_at] of that first entry, and of no other, to the time of the
    request (the entry keeps its id, draft and [created_at], and is the one
    the answer carries), and delete removes that first entry only;
    everything before it and everything after it, later entries with the
    same id included, stays as it was. *)
Theorem first_match_only
    (now : Date) (id_ : string) (u : string) (s : Store)
    (l1 : list Notification) (n : Notification) (l2 : list Notification) :
  u ≠ "" →
  s !! JStr u = Some (l1 ++ n :: l2) →
  Forall (λ m, id m ≠ id_) l1 →
  id n = id_ →
  put_notification_read now id_ (Some u) s =
    ((200, ok_notification {| id := id n; draft := draft n; read_at := Some now;
                              created_at := created_at n |}),
     <[JStr u := l1 ++ {| id := id n; draft := draft n; read_at := Some now;
                          created_at := created_at n |} :: l2]> s)
  ∧ snd (put_notification_read now id_ (Some u) s) !! JStr u =
      Some (l1 ++ {| id := id n; draft := draft n; read_at := Some now;
                     created_at := created_at n |} :: l2)
  ∧ snd (delete_notification id_ (Some u) s) !! JStr u = Some (l1 ++ l2).
Proof.
  intros Hu Hl Hbefore Hn.
  assert (Hput := put_read_found now id_ u s l1 n l2 Hu (get_or_empty_Some _ _ _ Hl)
                    Hbefore Hn).
  unfold set_read_at in Hput. split_and!.
  - exact Hput.
  - rewrite Hput. cbn [snd]. by rewrite lookup_insert_eq.
  - rewrite (delete_found id_ u s l1 n l2 Hu Hl Hbefore Hn).
    cbn [snd]. by rewrite lookup_insert_eq.
Qed.

Lemma first_match_only_witness :
  let d1 := {| type := "booking_confirmation"; category := "booking_confirmation";
               title := "Booking Confirmed"; message := "first"; metadata := [] |} in
  let d2 := {| type := "achievement"; category := "achievement";
               title := "Achievement Unlocked!"; message := "second"; metadata := [] |} in
  let a := {| id := "1700000000000"; draft := d1; read_at := None;
              created_at := 1700000000000 |} in
  let a_read := {| id := "1700000000000"; draft := d1; read_at := Some 1700000000100%Z;
                   created_at := 1700000000000 |} in
  let b := {| id := "1700000000000"; draft := d2; read_at := None;
              created_at := 1700000000000 |} in
  let s : Store := {[ JStr "u1" := [a; b] ]} in
  "u1" ≠ ""
  ∧ s !! JStr "u1" = Some ([] ++ a :: [b])
  ∧ Forall (λ m, id m ≠ "1700000000000") []
  ∧ id a = "1700000000000"
  ∧ fst (put_notification_read 1700000000100 "1700000000000" (Some "u1") s) =
      (200, ok_notification a_read)
  ∧ snd (put_notification_read 1700000000100 "1700000000000" (Some "u1") s) !! JStr "u1" =
      Some [a_read; b]
  ∧ snd (delete_notification "1700000000000" (Some "u1") s) !! JStr "u1" = Some [b].
Proof.
  intros d1 d2 a a_read b s.
  assert (Hu : "u1" ≠ "") by discriminate.
  assert (Hl : s !! JStr "u1" = Some ([] ++ a :: [b])) by reflexivity.
  assert (Hbefore : Forall (λ m, id m ≠ "1700000000000") []) by constructor.
  assert (Hn : id a = "1700000000000") by reflexivity.
  split; [exact Hu|]. split; [exact Hl|]. split; [exact Hbefore|]. split; [exact Hn|].
  destruct (first_match_only 1700000000100 "1700000000000" "u1" s [] a [b] Hu Hl Hbefore Hn)
    as (Hanswer & Hmarked & Hdeleted).
  split; [|split; [exact Hmarked | exact Hdeleted]].
  exact (f_equal fst Hanswer).
Defined.

(** ** Unread count *)

Lemma length_filter_unread (l : list Notification) :
  length (filter unread l) = count_null_read_at l.
Proof.
  induction l as [|n l IH]; [done|].
  rewrite filter_cons. simpl.
  destruct (read_at n) as [t|] eqn:Hread.
  - rewrite decide_False; [exact IH|]. unfold unread. by rewrite Hread.
  - rewrite decide_True by done. simpl. by rewrite IH.
Qed.

Lemma count_null_read_at_all_read (l : list Notification) :
  Forall (λ n, is_Some (read_at n)) l → count_null_read_at l = 0.
Proof.
  induction 1 as [|n l [t Ht] _ IH]; [done|]. simpl. by rewrite Ht.
Qed.

(** C7: the unread-count endpoint answers 200 with the number of entries of
    the user's array whose [read_at] is null; that is 0 for a user without an
    array, for an empty array and for an array whose entries are all read. *)
Theorem unread_count_counts_null_read_at (u : string) (s : Store) :
  u ≠ "" →
  get_unread_count (Some u) s =
    (200, ok_count (count_null_read_at (get_or_empty (JStr u) s)))
  ∧ (s !! JStr u = None → get_unread_count (Some u) s = (200, ok_count 0))
  ∧ (s !! JStr u = Some [] → get_unread_count (Some u) s = (200, ok_count 0))
  ∧ (Forall (λ n, is_Some (read_at n)) (get_or_empty (JStr u) s) →
       get_unread_count (Some u) s = (200, ok_count 0)).
Proof.
  intros Hu.
  assert (Hcount : get_unread_count (Some u) s =
                     (200, ok_count (count_null_read_at (get_or_empty (JStr u) s)))).
  { unfold get_unread_count. past_user_id_check Hu.
    by rewrite length_filter_unread. }
  rewrite Hcount. split_and!.
  - done.
  - intros Hnone. by rewrite (get_or_empty_None _ _ Hnone).
  - intros Hempty. by rewrite (get_or_empty_Some _ _ _ Hempty).
  - intros Hread. by rewrite count_null_read_at_all_read.
Qed.

Lemma unread_count_witness :
  let d := {| type := "achievement"; category := "achievement"; title := "T";
              message := "m"; metadata := [] |} in
  let a := {| id := "1700000000000"; draft := d; read_at := None;
              created_at := 1700000000000 |} in
  let b := {| id := "1700000000007"; draft := d; read_at := Some 1700000000050%Z;
              created_at := 1700000000007 |} in
  let c := {| id := "1700000000009"; draft := d; read_at := None;
              created_at := 1700000000009 |} in
  let s : Store := {[ JStr "u1" := [a; b; c] ]} in
  "u1" ≠ "" ∧ get_unread_count (Some "u1") s = (200, ok_count 2).
Proof.
  intros d a b c s.
  assert (Hu : "u1" ≠ "") by discriminate.
  split; [exact Hu|].
  exact (proj1 (unread_count_counts_null_read_at "u1" s Hu)).
Defined.

(** ** The life of [read_at] *)

(** The record is found again, field for field as it was; what is left to
    show is where. *)
Ltac found_as_it_was n := exists n; split_and!; [|done|done|done|by left].

Section read_at_lemmas.
Implicit Types (s : Store) (u : JsPrim) (n : Notification) (op : Op).

(** One operation, seen from a record that survives it: the record is
    found at its new index with the same id, draft and [created_at], and
    its [read_at] is either what it was or the time of this very mark-read
    call. *)
Lemma step_keeps_record op s u i j n :
  get_or_empty u s !! i = Some n →
  index_after op s u i = Some j →
  ∃ n',
    get_or_empty u (step op s) !! j = Some n'
    ∧ id n' = id n ∧ draft n' = draft n ∧ created_at n' = created_at n
    ∧ (read_at n' = read_at n
       ∨ ∃ now id_ user_id, op = op_markRead now id_ user_id ∧ read_at n' = Some now).
Proof.
  intros Hn Hj. destruct op as [c|now id_ user_id|id_ user_id]; simpl in Hj |- *.
  - (* append *)
    injection Hj as <-. found_as_it_was n.
    rewrite append_get. destruct (decide (userId c = u)); [|done].
    by apply lookup_app_l_Some.
  - (* mark read *)
    injection Hj as <-. unfold put_notification_read.
    destruct (truthy (query user_id)); simpl negb; cbv iota zeta;
      [|exists n; split_and!; [done..|by left]].
    destruct (find id_ (get_or_empty (query user_id) s)) as [[k m]|] eqn:Hfind;
      cbn [snd]; [|exists n; split_and!; [done..|by left]].
    destruct (decide (query user_id = u)) as [Heq|Hne].
    + rewrite Heq in *. rewrite get_or_empty_insert.
      apply list_find_Some in Hfind as (Hk & _ & _).
      destruct (decide (k = i)) as [->|Hki].
      * assert (m = n) as -> by congruence.
        exists (set_read_at now n). split_and!; [|done|done|done|].
        -- apply list_lookup_insert_eq. by apply lookup_lt_Some in Hn.
        -- right. by exists now, id_, user_id.
      * found_as_it_was n.
        by rewrite list_lookup_insert_ne.
    + found_as_it_was n.
      by rewrite get_or_empty_insert_ne.
  - (* delete *)
    unfold delete_notification.
    destruct (decide (query user_id = u ∧ truthy u = true)) as [[Heq Htruthy]|Hnot].
    + rewrite Heq in *. rewrite Htruthy. simpl negb. cbv iota zeta.
      destruct (s !! u) as [l|] eqn:Hl.
      2:{ rewrite (get_or_empty_None _ _ Hl) in Hn. done. }
      rewrite (get_or_empty_Some _ _ _ Hl) in Hn, Hj.
      destruct (findIndex id_ l) as [k|] eqn:Hk; cbn [snd].
      2:{ injection Hj as <-. found_as_it_was n.
          by rewrite (get_or_empty_Some _ _ _ Hl). }
      rewrite get_or_empty_insert.
      found_as_it_was n.
      destruct (decide (i < k)); [|destruct (decide (i = k)); [done|]];
        injection Hj as <-.
      * by rewrite list_lookup_delete_lt.
      * rewrite list_lookup_delete_ge by lia.
        replace (S (pred i)) with i by lia. done.
    + injection Hj as <-. found_as_it_was n.
      destruct (truthy (query user_id)) eqn:Htruthy; simpl negb; cbv iota zeta; [|done].
      destruct (s !! query user_id) as [l|] eqn:Hl; [|done].
      destruct (findIndex id_ l); [|done]. cbn [snd].
      rewrite get_or_empty_insert_ne; [done|].
      intros Heq. apply Hnot. split; [done|]. by rewrite <-Heq.
Qed.
End read_at_lemmas.

(** C3, as the code has it: follow a record through any run of appends,
    mark-reads and deletes that does not delete it.  It keeps its id, draft
    and [created_at]; its [read_at] is what it was or the time of a mark-read
    call of the run; and a [read_at] that was set is still set: no
    operation puts it back to null.  (A mark-read of an already read record
    replaces the earlier time by the current one.) *)
Theorem read_at_never_returns_to_null
    (ops : list Op) (s : Store) (u : JsPrim) (i j : nat) (n : Notification) :
  get_or_empty u s !! i = Some n →
  index_after_run ops s u i = Some j →
  ∃ n',
    get_or_empty u (run ops s) !! j = Some n'
    ∧ id n' = id n ∧ draft n' = draft n ∧ created_at n' = created_at n
    ∧ (read_at n' = read_at n
       ∨ ∃ now id_ user_id, op_markRead now id_ user_id ∈ ops ∧ read_at n' = Some now)
    ∧ (is_Some (read_at n) → is_Some (read_at n')).
Proof.
  unfold run. revert s i n.
  induction ops as [|op ops IH]; intros s i n Hn Hj; simpl in Hj |- *.
  - injection Hj as <-. exists n. split_and!; [done..|by left|done].
  - destruct (index_after op s u i) as [k|] eqn:Hk; [|done].
    destruct (step_keeps_record op s u i k n Hn Hk)
      as (m & Hm & Hid & Hdraft & Hcreated & Hread).
    destruct (IH (step op s) k m Hm Hj)
      as (n' & Hn' & Hid' & Hdraft' & Hcreated' & Hread' & Hset').
    exists n'. split_and!; [done|congruence..| |].
    + destruct Hread' as [Hread'|(now & id_ & user_id & Hin & Hnow)].
      * destruct Hread as [Hread|(now & id_ & user_id & -> & Hnow)].
        -- left. congruence.
        -- right. exists now, id_, user_id. split; [apply list_elem_of_here|congruence].
      * right. exists now, id_, user_id. split; [by apply list_elem_of_further|done].
    + intros Hset. apply Hset'.
      destruct Hread as [->|(now & _ & _ & _ & ->)]; [done|by eexists].
Qed.

Lemma read_at_never_returns_to_null_witness :
  let d := {| type := "achievement"; category := "achievement"; title := "T";
              message := "m"; metadata := [] |} in
  let a := {| id := "1700000000000"; draft := d; read_at := None;
              created_at := 1700000000000 |} in
  let b := {| id := "1700000000007"; draft := d; read_at := Some 1700000000050%Z;
              created_at := 1700000000007 |} in
  let s : Store := {[ JStr "u1" := [a; b] ]} in
  let ops := [ op_delete "1700000000000" (Some "u1");
               op_append {| userId := JStr "u1"; now := 1700000000100;
                            created := 1700000000100; notification := d |};
               op_markRead 1700000000200 "1700000000100" (Some "u1") ] in
  get_or_empty (JStr "u1") s !! 1 = Some b
  ∧ index_after_run ops s (JStr "u1") 1 = Some 0
  ∧ ∃ n', get_or_empty (JStr "u1") (run ops s) !! 0 = Some n'
          ∧ (is_Some (read_at b) → is_Some (read_at n')).
Proof.
  intros d a b s ops.
  assert (Hn : get_or_empty (JStr "u1") s !! 1 = Some b) by reflexivity.
  assert (Hj : index_after_run ops s (JStr "u1") 1 = Some 0) by (vm_compute; reflexivity).
  split; [exact Hn|]. split; [exact Hj|].
  destruct (read_at_never_returns_to_null ops s (JStr "u1") 1 0 b Hn Hj)
    as (n' & Hn' & _ & _ & _ & _ & Hset).
  exists n'. split; [exact Hn' | exact Hset].
Defined.

(** Marking an already read notification again: its [read_at], set at
    [1700000000050], becomes [1700000000200], a change that does not start
    from null. *)
Lemma markRead_again_replaces_read_at :
  let d := {| type := "achievement"; category := "achievement"; title := "T";
              message := "m"; metadata := [] |} in
  let b := {| id := "1700000000007"; draft := d; read_at := Some 1700000000050%Z;
              created_at := 1700000000007 |} in
  let b' := {| id := "1700000000007"; draft := d; read_at := Some 1700000000200%Z;
               created_at := 1700000000007 |} in
  let s : Store := {[ JStr "u1" := [b] ]} in
  put_notification_read 1700000000200 "1700000000007" (Some "u1") s =
    ((200, ok_notification b'), {[ JStr "u1" := [b'] ]})
  ∧ ¬ one_way (read_at b) (read_at b').
Proof.
  intros d b b' s. split.
  - rewrite (put_read_found 1700000000200 "1700000000007" "u1" s [] b []);
      [|discriminate|reflexivity|constructor|reflexivity].
    simpl app. unfold s. by rewrite insert_singleton_eq.
  - intros [Hsame|[Hnull _]]; discriminate.
Qed.

(** * Further properties of the store and the API *)

(** ** Requests that fail *)

Lemma truthy_query_false user_id :
  truthy (query user_id) = false ↔ user_id = None ∨ user_id = Some "".
Proof.
  destruct user_id as [u|]; simpl.
  - rewrite negb_false_iff, String.eqb_eq. split; [intros ->; by right|].
    intros [?|[= ->]]; done.
  - split; [by left|done].
Qed.

Lemma get_unread_count_eq u s :
  u ≠ "" →
  get_unread_count (Some u) s =
    (200, ok_count (count_null_read_at (get_or_empty (JStr u) s))).
Proof.
  intros Hu. unfold get_unread_count. past_user_id_check Hu.
  by rewrite length_filter_unread.
Qed.

Lemma get_notifications_eq u s :
  u ≠ "" → get_notifications (Some u) s = (200, ok_list (get_or_empty (JStr u) s)).
Proof. intros Hu. unfold get_notifications. by past_user_id_check Hu. Qed.

(** X1: each of the four endpoints answers 400 exactly when the request's
    [user_id] is missing or the empty string, and then the body is the
    MISSING_USER_ID error and the store is not touched. *)
Theorem user_id_is_required
    (user_id : option string) (now : Date) (id_ : string) (s : Store) :
  (fst (get_notifications user_id s) = 400 ↔ user_id = None ∨ user_id = Some "")
  ∧ (fst (fst (put_notification_read now id_ user_id s)) = 400
     ↔ user_id = None ∨ user_id = Some "")
  ∧ (fst (fst (delete_notification id_ user_id s)) = 400
     ↔ user_id = None ∨ user_id = Some "")
  ∧ (fst (get_unread_count user_id s) = 400 ↔ user_id = None ∨ user_id = Some "")
  ∧ (user_id = None ∨ user_id = Some "" →
       get_notifications user_id s = missing_user_id
       ∧ put_notification_read now id_ user_id s = (missing_user_id, s)
       ∧ delete_notification id_ user_id s = (missing_user_id, s)
       ∧ get_unread_count user_id s = missing_user_id).
Proof.
  rewrite <-truthy_query_false.
  unfold get_notifications, put_notification_read, delete_notification, get_unread_count.
  destruct (truthy (query user_id)) eqn:Htruthy; simpl negb; cbv iota zeta.
  - split_and!; try done.
    + destruct (find id_ _) as [[??]|]; done.
    + destruct (s !! query user_id) as [l|]; [|done].
      destruct (findIndex id_ l); done.
  - done.
Qed.

(** X2: a mark-read or delete request that is not answered 200 leaves the
    store exactly as it was. *)
Theorem failed_request_leaves_store
    (user_id : option string) (now : Date) (id_ : string) (s : Store) :
  (fst (fst (put_notification_read now id_ user_id s)) ≠ 200 →
     snd (put_notification_read now id_ user_id s) = s)
  ∧ (fst (fst (delete_notification id_ user_id s)) ≠ 200 →
     snd (delete_notification id_ user_id s) = s).
Proof.
  unfold put_notification_read, delete_notification.
  destruct (truthy (query user_id)); simpl negb; cbv iota zeta; [|done].
  split.
  - destruct (find id_ _) as [[??]|]; done.
  - destruct (s !! query user_id) as [l|]; [|done].
    destruct (findIndex id_ l); done.
Qed.

Lemma failed_request_leaves_store_witness :
  let d := {| type := "achievement"; category := "achievement"; title := "T";
              message := "m"; metadata := [] |} in
  let a := {| id := "1700000000000"; draft := d; read_at := None;
              created_at := 1700000000000 |} in
  let s : Store := {[ JStr "u1" := [a] ]} in
  fst (fst (put_notification_read 1700000000100 "nonexistent-id" (Some "u1") s)) ≠ 200
  ∧ snd (put_notification_read 1700000000100 "nonexistent-id" (Some "u1") s) = s.
Proof.
  intros d a s.
  assert (Hstatus : fst (fst (put_notification_read 1700000000100 "nonexistent-id"
                                (Some "u1") s)) ≠ 200) by (vm_compute; discriminate).
  split; [exact Hstatus|].
  exact (proj1 (failed_request_leaves_store (Some "u1") 1700000000100 "nonexistent-id" s)
           Hstatus).
Defined.

(** ** Frame and keys *)

Lemma append_lookup_ne c s u : u ≠ userId c → append c s !! u = s !! u.
Proof.
  intros Hne. unfold append, storeNotification.
  rewrite lookup_alter_ne by done.
  destruct (s !! userId c); [done|]. by rewrite lookup_insert_ne.
Qed.

Lemma step_lookup_ne (op : Op) (s : Store) (u : JsPrim) :
  u ≠ target op → step op s !! u = s !! u.
Proof.
  intros Hne. destruct op as [c|now id_ user_id|id_ user_id]; simpl in Hne |- *.
  - by apply append_lookup_ne.
  - unfold put_notification_read.
    destruct (truthy (query user_id)); simpl negb; cbv iota zeta; [|done].
    destruct (find id_ _) as [[??]|]; cbn [snd]; [|done].
    by rewrite lookup_insert_ne.
  - unfold delete_notification.
    destruct (truthy (query user_id)); simpl negb; cbv iota zeta; [|done].
    destruct (s !! query user_id) as [l|]; [|done].
    destruct (findIndex id_ l); cbn [snd]; [|done].
    by rewrite lookup_insert_ne.
Qed.

(** X3: an operation aimed at one user never changes what the store holds
    for any other user. *)
Theorem other_users_untouched (op : Op) (s : Store) (u : JsPrim) :
  u ≠ target op → step op s !! u = s !! u.
Proof. apply step_lookup_ne. Qed.

Lemma other_users_untouched_witness :
  let d := {| type := "achievement"; category := "achievement"; title := "T";
              message := "m"; metadata := [] |} in
  let a := {| id := "1700000000000"; draft := d; read_at := None;
              created_at := 1700000000000 |} in
  let s : Store := {[ JStr "u1" := [a]; JStr "u2" := [a] ]} in
  JStr "u2" ≠ target (op_delete "1700000000000" (Some "u1"))
  ∧ step (op_delete "1700000000000" (Some "u1")) s !! JStr "u2" = Some [a].
Proof.
  intros d a s.
  assert (Hne : JStr "u2" ≠ target (op_delete "1700000000000" (Some "u1"))) by discriminate.
  split; [exact Hne|].
  exact (other_users_untouched (op_delete "1700000000000" (Some "u1")) s (JStr "u2") Hne).
Defined.

(** X4: a user has an array in the store after an operation exactly when
    the user had one before or the operation is an append for that user:
    only appends create arrays, and no operation removes one, not even the
    delete of its last entry. *)
Theorem arrays_are_created_by_appends_only (op : Op) (s : Store) (u : JsPrim) :
  is_Some (step op s !! u)
  ↔ is_Some (s !! u) ∨ ∃ c, op = op_append c ∧ userId c = u.
Proof.
  destruct op as [c|now id_ user_id|id_ user_id]; simpl.
  - unfold append, storeNotification.
    destruct (decide (userId c = u)) as [<-|Hne].
    + split; [intros _; right; by exists c|intros _].
      rewrite lookup_alter_eq.
      destruct (s !! userId c) as [l|] eqn:Hl; [by rewrite Hl|].
      by rewrite lookup_insert_eq.
    + rewrite lookup_alter_ne by done.
      assert (Hsame : (match s !! userId c with
                       | Some _ => s
                       | None => <[userId c := []]> s
                       end) !! u = s !! u).
      { destruct (s !! userId c); [done|]. by rewrite lookup_insert_ne. }
      rewrite Hsame. split; [by left|]. intros [?|(c' & [= <-] & ?)]; done.
  - assert (Hkeys : is_Some (snd (put_notification_read now id_ user_id s) !! u)
                    ↔ is_Some (s !! u)).
    { unfold put_notification_read.
      destruct (truthy (query user_id)); simpl negb; cbv iota zeta; [|done].
      destruct (find id_ _) as [[k m]|] eqn:Hfind; cbn [snd]; [|done].
      destruct (decide (query user_id = u)) as [Heq|Hne].
      - rewrite Heq in *. rewrite lookup_insert_eq.
        unfold get_or_empty in Hfind. destruct (s !! u); [done|]. done.
      - by rewrite lookup_insert_ne. }
    rewrite Hkeys. split; [by left|]. intros [?|(c & [=] & _)]. done.
  - assert (Hkeys : is_Some (snd (delete_notification id_ user_id s) !! u)
                    ↔ is_Some (s !! u)).
    { unfold delete_notification.
      destruct (truthy (query user_id)); simpl negb; cbv iota zeta; [|done].
      destruct (s !! query user_id) as [l|] eqn:Hl; [|done].
      destruct (findIndex id_ l); cbn [snd]; [|done].
      destruct (decide (query user_id = u)) as [Heq|Hne].
      - rewrite Heq in *. rewrite lookup_insert_eq, Hl. done.
      - by rewrite lookup_insert_ne. }
    rewrite Hkeys. split; [by left|]. intros [?|(c & [=] & _)]. done.
Qed.

(** ** Counting along the operations *)

Lemma count_null_read_at_app (l1 l2 : list Notification) :
  count_null_read_at (l1 ++ l2) = count_null_read_at l1 + count_null_read_at l2.
Proof.
  induction l1 as [|n l1 IH]; [done|]. simpl.
  destruct (read_at n); by rewrite IH.
Qed.

(** X5: a stored notification starts unread.  After an append for a user,
    the list endpoint shows one more entry at the end and the unread count
    is one higher; for every other user both answers are what they were. *)
Theorem append_adds_one_unread (c : Append) (s : Store) (u : string) :
  u ≠ "" →
  (userId c = JStr u →
     get_notifications (Some u) (append c s) =
       (200, ok_list (get_or_empty (JStr u) s ++ [pushed c]))
     ∧ get_unread_count (Some u) (append c s) =
       (200, ok_count (S (count_null_read_at (get_or_empty (JStr u) s)))))
  ∧ (userId c ≠ JStr u →
     get_notifications (Some u) (append c s) = get_notifications (Some u) s
     ∧ get_unread_count (Some u) (append c s) = get_unread_count (Some u) s).
Proof.
  intros Hu.
  rewrite !get_notifications_eq, !get_unread_count_eq, append_get by done.
  split; intros Hc.
  - rewrite decide_True by done. split; [done|].
    rewrite count_null_read_at_app. simpl. do 2 f_equal. lia.
  - by rewrite decide_False.
Qed.

Lemma append_adds_one_unread_witness :
  let d := {| type := "achievement"; category := "achievement"; title := "T";
              message := "m"; metadata := [] |} in
  let c := {| userId := JStr "u1"; now := 1700000000000; created := 1700000000001;
              notification := d |} in
  "u1" ≠ "" ∧ userId c = JStr "u1"
  ∧ get_unread_count (Some "u1") (append c ∅) = (200, ok_count 1).
Proof.
  intros d c.
  assert (Hu : "u1" ≠ "") by discriminate.
  assert (Hc : userId c = JStr "u1") by reflexivity.
  split; [exact Hu|]. split; [exact Hc|].
  exact (proj2 (proj1 (append_adds_one_unread c ∅ "u1" Hu) Hc)).
Defined.

(** X6: marking a notification read lowers the user's unread count by one
    when the targeted record was unread and leaves it as it is when the
    record was read already; the list keeps its length. *)
Theorem markRead_lowers_unread_count_once
    (now : Date) (id_ : string) (u : string) (s : Store) (i : nat) (n : Notification) :
  u ≠ "" →
  find id_ (get_or_empty (JStr u) s) = Some (i, n) →
  let s' := snd (put_notification_read now id_ (Some u) s) in
  length (get_or_empty (JStr u) s') = length (get_or_empty (JStr u) s)
  ∧ match read_at n with
    | None =>
        count_null_read_at (get_or_empty (JStr u) s) =
          S (count_null_read_at (get_or_empty (JStr u) s'))
    | Some _ =>
        get_unread_count (Some u) s' = get_unread_count (Some u) s
    end
  ∧ get_unread_count (Some u) s' =
      (200, ok_count (count_null_read_at (get_or_empty (JStr u) s')))
  ∧ get_unread_count (Some u) s =
      (200, ok_count (count_null_read_at (get_or_empty (JStr u) s))).
Proof.
  intros Hu Hfind s'.
  destruct (find_split _ _ _ _ Hfind) as (l1 & l2 & Hl & _ & Hbefore & Hn).
  unfold s'. rewrite (put_read_found now id_ u s l1 n l2 Hu Hl Hbefore Hn). cbn [snd].
  rewrite !get_unread_count_eq by done.
  rewrite get_or_empty_insert, Hl. split_and!; [| |done|done].
  - by rewrite !length_app.
  - rewrite !count_null_read_at_app. simpl.
    destruct (read_at n); [done|lia].
Qed.

Lemma markRead_lowers_unread_count_witness :
  let d := {| type := "achievement"; category := "achievement"; title := "T";
              message := "m"; metadata := [] |} in
  let a := {| id := "1700000000000"; draft := d; read_at := None;
              created_at := 1700000000000 |} in
  let b := {| id := "1700000000007"; draft := d; read_at := None;
              created_at := 1700000000007 |} in
  let s : Store := {[ JStr "u1" := [a; b] ]} in
  "u1" ≠ ""
  ∧ find "1700000000007" (get_or_empty (JStr "u1") s) = Some (1, b)
  ∧ get_unread_count (Some "u1")
      (snd (put_notification_read 1700000000100 "1700000000007" (Some "u1") s)) =
      (200, ok_count 1).
Proof.
  intros d a b s.
  assert (Hu : "u1" ≠ "") by discriminate.
  assert (Hfind : find "1700000000007" (get_or_empty (JStr "u1") s) = Some (1, b))
    by reflexivity.
  split; [exact Hu|]. split; [exact Hfind|].
  destruct (markRead_lowers_unread_count_once 1700000000100 "1700000000007" "u1" s 1 b
              Hu Hfind) as (_ & _ & Hafter & _).
  rewrite Hafter. vm_compute. reflexivity.
Defined.

(** X7: a successful delete shortens the user's list by exactly one entry,
    and lowers the unread count by one exactly when the removed entry was
    unread. *)
Theorem delete_lowers_length_by_one
    (id_ : string) (u : string) (s : Store) (i : nat) (n : Notification) :
  u ≠ "" →
  find id_ (get_or_empty (JStr u) s) = Some (i, n) →
  let s' := snd (delete_notification id_ (Some u) s) in
  length (get_or_empty (JStr u) s) = S (length (get_or_empty (JStr u) s'))
  ∧ count_null_read_at (get_or_empty (JStr u) s) =
      (if read_at n is None then 1 else 0) + count_null_read_at (get_or_empty (JStr u) s')
  ∧ get_unread_count (Some u) s' =
      (200, ok_count (count_null_read_at (get_or_empty (JStr u) s'))).
Proof.
  intros Hu Hfind s'.
  destruct (find_split _ _ _ _ Hfind) as (l1 & l2 & Hl & _ & Hbefore & Hn).
  assert (Hs : s !! JStr u = Some (l1 ++ n :: l2)).
  { unfold get_or_empty in Hl. destruct (s !! JStr u) as [l|]; simpl in Hl.
    - by rewrite Hl.
    - by destruct l1. }
  unfold s'. rewrite (delete_found id_ u s l1 n l2 Hu Hs Hbefore Hn). cbn [snd].
  rewrite get_unread_count_eq by done.
  rewrite get_or_empty_insert, Hl. split_and!; [| |done].
  - rewrite !length_app. simpl. lia.
  - rewrite !count_null_read_at_app. simpl. destruct (read_at n); lia.
Qed.

Lemma delete_lowers_length_witness :
  let d := {| type := "achievement"; category := "achievement"; title := "T";
              message := "m"; metadata := [] |} in
  let a := {| id := "1700000000000"; draft := d; read_at := None;
              created_at := 1700000000000 |} in
  let b := {| id := "1700000000007"; draft := d; read_at := Some 1700000000050%Z;
              created_at := 1700000000007 |} in
  let s : Store := {[ JStr "u1" := [a; b] ]} in
  "u1" ≠ ""
  ∧ find "1700000000000" (get_or_empty (JStr "u1") s) = Some (0, a)
  ∧ length (get_or_empty (JStr "u1") s) =
      S (length (get_or_empty (JStr "u1")
                   (snd (delete_notification "1700000000000" (Some "u1") s)))).
Proof.
  intros d a b s.
  assert (Hu : "u1" ≠ "") by discriminate.
  assert (Hfind : find "1700000000000" (get_or_empty (JStr "u1") s) = Some (0, a))
    by reflexivity.
  split; [exact Hu|]. split; [exact Hfind|].
  exact (proj1 (delete_lowers_length_by_one "1700000000000" "u1" s 0 a Hu Hfind)).
Defined.

(** ** Repeating a request *)

Lemma set_read_at_set_read_at t1 t2 n :
  set_read_at t2 (set_read_at t1 n) = set_read_at t2 n.
Proof. done. Qed.

(** X8: the last mark-read wins.  Marking the same id for the same user
    twice gives the answer and the store that the second request alone would
    have given, whatever the first did. *)
Theorem markRead_last_write_wins
    (t1 t2 : Date) (id_ : string) (user_id : option string) (s : Store) :
  put_notification_read t2 id_ user_id (snd (put_notification_read t1 id_ user_id s)) =
    put_notification_read t2 id_ user_id s.
Proof.
  destruct (truthy (query user_id)) eqn:Htruthy.
  2:{ unfold put_notification_read. by rewrite Htruthy. }
  destruct user_id as [u|]; [|done].
  assert (Hu : u ≠ "").
  { intros ->. done. }
  destruct (find id_ (get_or_empty (JStr u) s)) as [[i n]|] eqn:Hfind.
  - destruct (find_split _ _ _ _ Hfind) as (l1 & l2 & Hl & _ & Hbefore & Hn).
    rewrite (put_read_found t1 id_ u s l1 n l2 Hu Hl Hbefore Hn). cbn [snd].
    rewrite (put_read_found t2 id_ u s l1 n l2 Hu Hl Hbefore Hn).
    rewrite (put_read_found t2 id_ u _ l1 (set_read_at t1 n) l2 Hu);
      [|by rewrite get_or_empty_insert|done|done].
    by rewrite set_read_at_set_read_at, insert_insert_eq.
  - assert (Hfirst : put_notification_read t1 id_ (Some u) s = (not_found, s)).
    { unfold put_notification_read. past_user_id_check Hu. by rewrite Hfind. }
    by rewrite Hfirst.
Qed.

(** X9: once the only entry carrying an id is deleted, the id is gone:
    the user's array stays in the store (empty, if that was its last entry),
    and a further delete or mark-read of that id is answered 404 and changes
    nothing. *)
Theorem deleted_id_is_gone
    (now : Date) (id_ : string) (u : string) (s : Store)
    (l1 : list Notification) (n : Notification) (l2 : list Notification) :
  u ≠ "" →
  s !! JStr u = Some (l1 ++ n :: l2) →
  id n = id_ →
  Forall (λ m, id m ≠ id_) (l1 ++ l2) →
  let s' := snd (delete_notification id_ (Some u) s) in
  s' !! JStr u = Some (l1 ++ l2)
  ∧ delete_notification id_ (Some u) s' = (not_found, s')
  ∧ put_notification_read now id_ (Some u) s' = (not_found, s').
Proof.
  intros Hu Hs Hn Hothers s'.
  assert (Hbefore : Forall (λ m, id m ≠ id_) l1) by by apply Forall_app in Hothers as [? _].
  unfold s'. rewrite (delete_found id_ u s l1 n l2 Hu Hs Hbefore Hn). cbn [snd].
  assert (Hall : ∀ m, m ∈ get_or_empty (JStr u) (<[JStr u := l1 ++ l2]> s) → id m ≠ id_).
  { rewrite get_or_empty_insert. by apply Forall_forall. }
  split_and!.
  - by rewrite lookup_insert_eq.
  - by apply delete_missing.
  - rewrite (put_read_missing now id_ u _ Hall). by rewrite (truthy_JStr u Hu).
Qed.

Lemma deleted_id_is_gone_witness :
  let d := {| type := "achievement"; category := "achievement"; title := "T";
              message := "m"; metadata := [] |} in
  let a := {| id := "1700000000000"; draft := d; read_at := None;
              created_at := 1700000000000 |} in
  let s : Store := {[ JStr "u1" := [a] ]} in
  let s' := snd (delete_notification "1700000000000" (Some "u1") s) in
  "u1" ≠ "" ∧ s !! JStr "u1" = Some ([] ++ a :: []) ∧ id a = "1700000000000"
  ∧ Forall (λ m, id m ≠ "1700000000000") ([] ++ [])
  ∧ s' !! JStr "u1" = Some []
  ∧ delete_notification "1700000000000" (Some "u1") s' = (not_found, s').
Proof.
  intros d a s s'.
  assert (Hu : "u1" ≠ "") by discriminate.
  assert (Hs : s !! JStr "u1" = Some ([] ++ a :: [])) by reflexivity.
  assert (Hn : id a = "1700000000000") by reflexivity.
  assert (Hothers : Forall (λ m, id m ≠ "1700000000000") ([] ++ [])) by constructor.
  split; [exact Hu|]. split; [exact Hs|]. split; [exact Hn|]. split; [exact Hothers|].
  destruct (deleted_id_is_gone 0 "1700000000000" "u1" s [] a [] Hu Hs Hn Hothers)
    as (Hkept & Hdelete & _).
  split; [exact Hkept | exact Hdelete].
Defined.

(** ** Duplicated ids and order *)

Section run_lemmas.
Implicit Types (s : Store) (u : JsPrim) (op : Op) (ops : list Op).

(** How each operation changes one user's array. *)
Lemma step_get op s u :
  get_or_empty u (step op s) = get_or_empty u s
  ∨ (∃ c, op = op_append c ∧ userId c = u
          ∧ get_or_empty u (step op s) = get_or_empty u s ++ [pushed c])
  ∨ (∃ now id_ user_id k m, op = op_markRead now id_ user_id
          ∧ find id_ (get_or_empty u s) = Some (k, m)
          ∧ get_or_empty u (step op s) = <[k := set_read_at now m]> (get_or_empty u s))
  ∨ (∃ id_ user_id k, op = op_delete id_ user_id
          ∧ get_or_empty u (step op s) = delete k (get_or_empty u s)).
Proof.
  destruct (decide (u = target op)) as [->|Hne].
  2:{ left. unfold get_or_empty. by rewrite step_lookup_ne. }
  destruct op as [c|now id_ user_id|id_ user_id]; simpl.
  - right; left. exists c. split_and!; [done..|].
    by rewrite append_get, decide_True.
  - unfold put_notification_read.
    destruct (truthy (query user_id)); simpl negb; cbv iota zeta; [|by left].
    destruct (find id_ _) as [[k m]|] eqn:Hfind; cbn [snd]; [|by left].
    right; right; left. exists now, id_, user_id, k, m.
    by rewrite get_or_empty_insert.
  - unfold delete_notification.
    destruct (truthy (query user_id)); simpl negb; cbv iota zeta; [|by left].
    destruct (s !! query user_id) as [l|] eqn:Hl; [|by left].
    destruct (findIndex id_ l) as [k|]; cbn [snd]; [|by left].
    right; right; right. exists id_, user_id, k.
    by rewrite get_or_empty_insert, (get_or_empty_Some _ _ _ Hl).
Qed.

Lemma step_keeps_later_duplicate op s u (i j : nat) b :
  is_delete op = false →
  (i < j)%nat →
  (∃ a, get_or_empty u s !! i = Some a ∧ id a = id b) →
  get_or_empty u s !! j = Some b →
  (∃ a, get_or_empty u (step op s) !! i = Some a ∧ id a = id b)
  ∧ get_or_empty u (step op s) !! j = Some b.
Proof.
  intros Hop Hij (a & Ha & Hid) Hb.
  destruct (step_get op s u)
    as [->|[(c & -> & _ & ->)|[(now & id_ & user_id & k & m & -> & Hfind & ->)
                              |(id_ & user_id & k & -> & _)]]].
  - eauto.
  - split; [exists a; split; [|done]|]; by apply lookup_app_l_Some.
  - apply list_find_Some in Hfind as (Hk & Hm & Hleast).
    assert (k ≠ j) as Hkj.
    { intros ->. assert (m = b) as -> by congruence.
      apply (Hleast i a Ha Hij). unfold has_id in *. congruence. }
    split; [|by rewrite list_lookup_insert_ne].
    destruct (decide (k = i)) as [->|Hki].
    + assert (m = a) as -> by congruence.
      exists (set_read_at now a). split; [|done].
      apply list_lookup_insert_eq. by apply lookup_lt_Some in Ha.
    + exists a. by rewrite list_lookup_insert_ne.
  - done.
Qed.
End run_lemmas.

(** X10: an entry that shares its id with an earlier entry of the same
    array is out of the API's reach while that earlier entry is there: no
    run of appends and mark-read requests, for whatever users, ids and times,
    changes it; in particular, if it is unread it stays unread. *)
Theorem later_duplicate_is_out_of_reach
    (ops : list Op) (s : Store) (u : JsPrim) (i j : nat) (a b : Notification) :
  Forall (λ op, is_delete op = false) ops →
  (i < j)%nat →
  get_or_empty u s !! i = Some a →
  get_or_empty u s !! j = Some b →
  id a = id b →
  get_or_empty u (run ops s) !! j = Some b.
Proof.
  intros Hops Hij Ha Hb Hid.
  assert (Hinv : ∃ a', get_or_empty u s !! i = Some a' ∧ id a' = id b) by eauto.
  clear Ha Hid. unfold run. revert s Hb Hinv.
  induction Hops as [|op ops Hop _ IH]; intros s Hb Hinv; [done|]. simpl.
  destruct (step_keeps_later_duplicate op s u i j b Hop Hij Hinv Hb) as [Hinv' Hb'].
  by apply IH.
Qed.

Lemma later_duplicate_witness :
  let d1 := {| type := "booking_confirmation"; category := "booking_confirmation";
               title := "Booking Confirmed"; message := "first"; metadata := [] |} in
  let d2 := {| type := "achievement"; category := "achievement";
               title := "Achievement Unlocked!"; message := "second"; metadata := [] |} in
  let a := {| id := "1700000000000"; draft := d1; read_at := None;
              created_at := 1700000000000 |} in
  let b := {| id := "1700000000000"; draft := d2; read_at := None;
              created_at := 1700000000000 |} in
  let s : Store := {[ JStr "u1" := [a; b] ]} in
  let ops := [ op_markRead 1700000000100 "1700000000000" (Some "u1");
               op_markRead 1700000000200 "1700000000000" (Some "u1") ] in
  Forall (λ op, is_delete op = false) ops
  ∧ (0 < 1)%nat
  ∧ get_or_empty (JStr "u1") s !! 0 = Some a
  ∧ get_or_empty (JStr "u1") s !! 1 = Some b
  ∧ id a = id b
  ∧ get_or_empty (JStr "u1") (run ops s) !! 1 = Some b.
Proof.
  intros d1 d2 a b s ops.
  assert (Hops : Forall (λ op, is_delete op = false) ops) by (repeat constructor).
  assert (Hij : (0 < 1)%nat) by lia.
  assert (Ha : get_or_empty (JStr "u1") s !! 0 = Some a) by reflexivity.
  assert (Hb : get_or_empty (JStr "u1") s !! 1 = Some b) by reflexivity.
  assert (Hid : id a = id b) by reflexivity.
  split; [exact Hops|]. split; [exact Hij|]. split; [exact Ha|]. split; [exact Hb|].
  split; [exact Hid|].
  exact (later_duplicate_is_out_of_reach ops s (JStr "u1") 0 1 a b Hops Hij Ha Hb Hid).
Defined.

Lemma content_set_read_at now n : content (set_read_at now n) = content n.
Proof. done. Qed.

Lemma appended_to_cons u op ops :
  appended_to u (op :: ops) = appended_to u [op] ++ appended_to u ops.
Proof. unfold appended_to. simpl. by destruct (match op with op_append _ => _ | _ => _ end). Qed.

Lemma step_content_sublist op s u :
  content <$> get_or_empty u (step op s)
  `sublist_of` content <$> (get_or_empty u s ++ appended_to u [op]).
Proof.
  destruct (step_get op s u)
    as [->|[(c & -> & Hc & ->)|[(now & id_ & user_id & k & m & -> & Hfind & ->)
                               |(id_ & user_id & k & -> & ->)]]].
  - rewrite fmap_app. by apply sublist_inserts_r.
  - unfold appended_to. simpl. by rewrite decide_True.
  - unfold appended_to. simpl. rewrite app_nil_r.
    apply list_find_Some in Hfind as (Hk & _ & _).
    rewrite list_fmap_insert, content_set_read_at, list_insert_id; [done|].
    by rewrite list_lookup_fmap, Hk.
  - unfold appended_to. simpl. rewrite app_nil_r.
    rewrite list_fmap_delete. apply sublist_delete.
Qed.

(** X11: insertion order survives every run of appends, mark-reads and
    deletes.  Leaving [read_at] aside, a user's array after the run is what
    it was before the run followed by the records appended for that user in
    call order, with some entries removed and none moved, changed or
    added. *)
Theorem surviving_records_keep_their_order (ops : list Op) (s : Store) (u : JsPrim) :
  content <$> get_or_empty u (run ops s)
  `sublist_of` content <$> (get_or_empty u s ++ appended_to u ops).
Proof.
  unfold run. revert s.
  induction ops as [|op ops IH]; intros s; cbn [foldl].
  - unfold appended_to. simpl. by rewrite app_nil_r.
  - etrans; [apply IH|].
    rewrite (appended_to_cons u op ops), app_assoc, !(fmap_app _ _ (appended_to u ops)).
    apply sublist_app; [|done]. apply step_content_sublist.
Qed.

(** * Further properties of the event handlers *)

(** ** Substrings of a template *)

Lemma prefix_append (x y : string) : String.prefix x (x +:+ y) = true.
Proof.
  induction x as [|a x IH]; simpl.
  - by destruct y.
  - destruct (ascii_dec a a); [exact IH|done].
Qed.

Lemma includes_here (x y : string) : includes x (x +:+ y) = true.
Proof.
  destruct x as [|a x], y as [|b y]; simpl; try done;
    rewrite ?prefix_append; try done;
    destruct (ascii_dec a a); rewrite ?prefix_append; done.
Qed.

Lemma includes_later (x before rest : string) :
  includes x rest = true → includes x (before +:+ rest) = true.
Proof.
  intros Hrest. induction before as [|a before IH]; [done|].
  simpl. rewrite IH. apply orb_true_r.
Qed.

(** ** The shape every handler has *)

Lemma store_lookup_ne env u d w u' :
  u' ≠ u → notifications (store env u d w) !! u' = notifications w !! u'.
Proof.
  intros Hne. unfold store. cbn [notifications].
  by apply (append_lookup_ne {| userId := u; now := date_now env; created := new_date env;
                                notification := d |}).
Qed.

Lemma on_event_booking_created : on_event "booking.created" = handleBookingCreated.
Proof. reflexivity. Qed.

(** Case analysis on a channel name: one goal per subscribed channel, and
    one for a name that is none of them. *)
Ltac by_channel channel :=
  destruct (String.eqb_spec channel "booking.created") as [->|?];
  [|destruct (String.eqb_spec channel "booking.cancelled") as [->|?];
  [|destruct (String.eqb_spec channel "booking.completed") as [->|?];
  [|destruct (String.eqb_spec channel "program.assigned") as [->|?];
  [|destruct (String.eqb_spec channel "program.completed") as [->|?];
  [|destruct (String.eqb_spec channel "achievement.earned") as [->|?];
  [|destruct (String.eqb_spec channel "milestone.reached") as [->|?]]]]]]].

Lemma on_event_unsubscribed channel env data w :
  literals channel = None → on_event channel env data w = w.
Proof.
  by_channel channel; try (intros [=]; fail).
  intros _. unfold on_event, handler_of, subscriptions. simpl.
  repeat case_decide; subst; first [done|congruence].
Qed.

(** An event either leaves the world alone (nobody subscribed, or the
    contact did not resolve to a truthy value), or its handler hands one mail
    to [sendEmail] and then stores one draft, carrying the channel's
    literals, for the payload's [client_id]. *)
Lemma on_event_shape channel env data w :
  (on_event channel env data w = w
   ∧ (literals channel = None
      ∨ (resolves_contact channel = true
         ∧ truthy_value (getUserContact env (get "client_id" data)) = false)))
  ∨ ∃ ty cat ti to_ subject_ body_ msg meta,
      literals channel = Some (ty, cat, ti)
      ∧ (resolves_contact channel = true →
           truthy_value (getUserContact env (get "client_id" data)) = true)
      ∧ on_event channel env data w =
          store env (get "client_id" data)
            {| type := ty; category := cat; title := ti; message := msg; metadata := meta |}
            (sendEmail to_ subject_ body_ w).
Proof.
  by_channel channel.
  - right. rewrite on_event_booking_created. unfold handleBookingCreated. cbv zeta.
    do 8 eexists. split_and!; [reflexivity|done|reflexivity].
  - right. rewrite on_event_booking_cancelled. unfold handleBookingCancelled. cbv zeta.
    do 8 eexists. split_and!; [reflexivity|done|reflexivity].
  - rewrite on_event_booking_completed. unfold handleBookingCompleted. cbv zeta.
    destruct (truthy_value (getUserContact env (get "client_id" data))); simpl negb; cbv iota.
    + right. do 8 eexists. split_and!; [reflexivity|done|reflexivity].
    + left. split; [done|by right].
  - rewrite on_event_program_assigned. unfold handleProgramAssigned. cbv zeta.
    destruct (truthy_value (getUserContact env (get "client_id" data))); simpl negb; cbv iota.
    + right. do 8 eexists. split_and!; [reflexivity|done|reflexivity].
    + left. split; [done|by right].
  - rewrite on_event_program_completed. unfold handleProgramCompleted. cbv zeta.
    destruct (truthy_value (getUserContact env (get "client_id" data))); simpl negb; cbv iota.
    + right. do 8 eexists. split_and!; [reflexivity|done|reflexivity].
    + left. split; [done|by right].
  - rewrite on_event_achievement_earned. unfold handleAchievementEarned. cbv zeta.
    destruct (truthy_value (getUserContact env (get "client_id" data))); simpl negb; cbv iota.
    + right. do 8 eexists. split_and!; [reflexivity|done|reflexivity].
    + left. split; [done|by right].
  - rewrite on_event_milestone_reached. unfold handleMilestoneReached. cbv zeta.
    destruct (truthy_value (getUserContact env (get "client_id" data))); simpl negb; cbv iota.
    + right. do 8 eexists. split_and!; [reflexivity|done|reflexivity].
    + left. split; [done|by right].
  - left. split; [|left].
    + apply on_event_unsubscribed. unfold literals.
      by repeat (rewrite (proj2 (String.eqb_neq _ _)) by done).
    + unfold literals. by repeat (rewrite (proj2 (String.eqb_neq _ _)) by done).
Qed.

Lemma on_event_lookup_ne channel env data w u :
  u ≠ get "client_id" data →
  notifications (on_event channel env data w) !! u = notifications w !! u.
Proof.
  intros Hne.
  destruct (on_event_shape channel env data w)
    as [[-> _]|(ty & cat & ti & to_ & subject_ & body_ & msg & meta & _ & _ & ->)]; [done|].
  by rewrite store_lookup_ne.
Qed.

(** ** What an event does to the world *)

(** X12: an event is all or nothing.  Whatever the channel, the
    environment and the payload, the handler either leaves the world exactly
    as it was, or hands exactly one mail to [sendEmail] and pushes exactly one
    notification, unread and stamped with the clock readings, at the end of
    the array of the payload's [client_id]; it never touches any other
    user's array. *)
Theorem event_is_all_or_nothing
    (channel : string) (env : Env) (data : JsObject) (w : World) :
  (on_event channel env data w = w
   ∨ ∃ mail stored,
       outbox (on_event channel env data w) = outbox w ++ [mail]
       ∧ get_or_empty (get "client_id" data) (notifications (on_event channel env data w)) =
           get_or_empty (get "client_id" data) (notifications w) ++ [stored]
       ∧ id stored = now_toString (date_now env)
       ∧ read_at stored = None
       ∧ created_at stored = new_date env)
  ∧ ∀ u, u ≠ get "client_id" data →
         notifications (on_event channel env data w) !! u = notifications w !! u.
Proof.
  split; [|intros u Hu; by apply on_event_lookup_ne].
  destruct (on_event_shape channel env data w)
    as [[-> _]|(ty & cat & ti & to_ & subject_ & body_ & msg & meta & _ & _ & ->)];
    [by left|right].
  do 2 eexists. rewrite store_get, decide_True by done.
  split_and!; reflexivity.
Qed.

(** X13: on each of the seven subscribed channels, when the handler gets
    past its contact check (the two booking channels have none), the
    notification it pushes carries that channel's [type], [category] and
    [title] literals and is unread, and one mail goes out. *)
Theorem handled_event_carries_channel_literals
    (channel : string) (env : Env) (data : JsObject) (w : World) (ty cat ti : string) :
  literals channel = Some (ty, cat, ti) →
  (resolves_contact channel = true →
     truthy_value (getUserContact env (get "client_id" data)) = true) →
  ∃ mail stored,
    outbox (on_event channel env data w) = outbox w ++ [mail]
    ∧ get_or_empty (get "client_id" data) (notifications (on_event channel env data w)) =
        get_or_empty (get "client_id" data) (notifications w) ++ [stored]
    ∧ type (draft stored) = ty
    ∧ category (draft stored) = cat
    ∧ title (draft stored) = ti
    ∧ read_at stored = None.
Proof.
  intros Hliterals Hcontact.
  destruct (on_event_shape channel env data w)
    as [[_ [Hnone|[Hresolves Hfalsy]]]
       |(ty' & cat' & ti' & to_ & subject_ & body_ & msg & meta & Hrow & _ & ->)].
  - congruence.
  - rewrite (Hcontact Hresolves) in Hfalsy. done.
  - assert (ty' = ty ∧ cat' = cat ∧ ti' = ti) as (-> & -> & ->) by (split_and!; congruence).
    do 2 eexists. rewrite store_get, decide_True by done.
    split_and!; reflexivity.
Qed.

Lemma handled_event_witness :
  let env := {| getUserContact := λ _, VObj [("first_name", JStr "Jane");
                                             ("email", JStr "jane@example.com")];
                getProgramDetails := λ _, VPrim JNull;
                date_now := 1700000000000; new_date := 1700000000002 |} in
  let data := [("client_id", JStr "client-456"); ("milestone_type", JStr "weight");
               ("achieved_value", JNum "70"); ("previous_value", JNum "75")] in
  let w := {| notifications := ∅; outbox := [] |} in
  literals "milestone.reached" = Some ("milestone", "achievement", "Milestone Achieved!")
  ∧ (resolves_contact "milestone.reached" = true →
       truthy_value (getUserContact env (get "client_id" data)) = true)
  ∧ ∃ mail stored,
      outbox (on_event "milestone.reached" env data w) = outbox w ++ [mail]
      ∧ get_or_empty (get "client_id" data)
          (notifications (on_event "milestone.reached" env data w)) =
          get_or_empty (get "client_id" data) (notifications w) ++ [stored]
      ∧ type (draft stored) = "milestone"
      ∧ category (draft stored) = "achievement"
      ∧ title (draft stored) = "Milestone Achieved!"
      ∧ read_at stored = None.
Proof.
  intros env data w.
  assert (Hliterals : literals "milestone.reached" =
                        Some ("milestone", "achievement", "Milestone Achieved!"))
    by reflexivity.
  assert (Hcontact : resolves_contact "milestone.reached" = true →
                     truthy_value (getUserContact env (get "client_id" data)) = true)
    by (intros _; reflexivity).
  split; [exact Hliterals|]. split; [exact Hcontact|].
  exact (handled_event_carries_channel_literals "milestone.reached" env data w
           "milestone" "achievement" "Milestone Achieved!" Hliterals Hcontact).
Defined.

(** X14: the contact check is a truthiness test.  On the five channels
    that resolve the client, any falsy contact ([undefined], [false], [0],
    [NaN], the empty string, as well as [null]) makes the handler return with
    the world as it was. *)
Theorem falsy_contact_leaves_world_unchanged
    (channel : string) (env : Env) (data : JsObject) (w : World) :
  resolves_contact channel = true →
  truthy_value (getUserContact env (get "client_id" data)) = false →
  on_event channel env data w = w.
Proof.
  intros Hresolves Hfalsy.
  destruct (on_event_shape channel env data w)
    as [[Hsame _]|(ty & cat & ti & to_ & subject_ & body_ & msg & meta & _ & Htruthy & _)];
    [done|].
  rewrite (Htruthy Hresolves) in Hfalsy. done.
Qed.

Lemma falsy_contact_witness :
  let env := {| getUserContact := λ _, VPrim JUndefined;
                getProgramDetails := λ _, VPrim JNull;
                date_now := 1700000000000; new_date := 1700000000002 |} in
  let data := [("booking_id", JStr "b1"); ("client_id", JStr "u1");
               ("workout_date", JStr "2025-01-15")] in
  let w := {| notifications := ∅; outbox := [] |} in
  resolves_contact "booking.completed" = true
  ∧ truthy_value (getUserContact env (get "client_id" data)) = false
  ∧ on_event "booking.completed" env data w = w.
Proof.
  intros env data w.
  assert (Hresolves : resolves_contact "booking.completed" = true) by reflexivity.
  assert (Hfalsy : truthy_value (getUserContact env (get "client_id" data)) = false)
    by reflexivity.
  split; [exact Hresolves|]. split; [exact Hfalsy|].
  exact (falsy_contact_leaves_world_unchanged "booking.completed" env data w Hresolves Hfalsy).
Defined.

(** ** Events seen through the API *)

Lemma endpoints_read_own_array (s s' : Store) (user_id : option string)
    (now : Date) (id_ : string) :
  s' !! query user_id = s !! query user_id →
  get_notifications user_id s' = get_notifications user_id s
  ∧ get_unread_count user_id s' = get_unread_count user_id s
  ∧ fst (put_notification_read now id_ user_id s') =
      fst (put_notification_read now id_ user_id s)
  ∧ fst (delete_notification id_ user_id s') = fst (delete_notification id_ user_id s).
Proof.
  intros Hsame.
  unfold get_notifications, get_unread_count, put_notification_read, delete_notification,
    get_or_empty.
  rewrite Hsame.
  destruct (truthy (query user_id)); simpl negb; cbv iota zeta; [|done].
  split_and!; [done|done| |].
  - by destruct (find id_ _) as [[??]|].
  - destruct (s !! query user_id) as [l|]; [|done]. by destruct (findIndex id_ l).
Qed.

(** X15: the API can only name users by a non-empty string.  When an
    event's [client_id] is anything else (a number, a boolean, [null], the
    empty string, or missing from the payload), whatever the handler stores
    is invisible: every endpoint answers every request as it did before the
    event. *)
Theorem non_string_client_id_is_invisible
    (channel : string) (env : Env) (data : JsObject) (w : World)
    (user_id : option string) (now : Date) (id_ : string) :
  (∀ u, u ≠ "" → get "client_id" data ≠ JStr u) →
  let s := notifications w in
  let s' := notifications (on_event channel env data w) in
  get_notifications user_id s' = get_notifications user_id s
  ∧ get_unread_count user_id s' = get_unread_count user_id s
  ∧ fst (put_notification_read now id_ user_id s') =
      fst (put_notification_read now id_ user_id s)
  ∧ fst (delete_notification id_ user_id s') = fst (delete_notification id_ user_id s).
Proof.
  intros Hclient s s'.
  destruct (truthy (query user_id)) eqn:Htruthy.
  - apply endpoints_read_own_array. unfold s', s. apply on_event_lookup_ne.
    destruct user_id as [u|]; [|done]. simpl. intros Heq.
    apply (Hclient u); [|done]. intros ->. done.
  - apply truthy_query_false in Htruthy.
    unfold get_notifications, get_unread_count, put_notification_read, delete_notification.
    by destruct Htruthy as [->| ->].
Qed.

Lemma non_string_client_id_witness :
  let env := {| getUserContact := λ _, VPrim JNull;
                getProgramDetails := λ _, VPrim JNull;
                date_now := 1700000000000; new_date := 1700000000002 |} in
  let data := [("booking_id", JStr "b1"); ("client_id", JNum "42");
               ("booking_date", JStr "2025-01-15"); ("start_time", JStr "10:00")] in
  let w := {| notifications := ∅; outbox := [] |} in
  (∀ u, u ≠ "" → get "client_id" data ≠ JStr u)
  ∧ length (get_or_empty (JNum "42")
              (notifications (on_event "booking.created" env data w))) = 1
  ∧ get_notifications (Some "42") (notifications (on_event "booking.created" env data w)) =
      (200, ok_list []).
Proof.
  intros env data w.
  assert (Hclient : ∀ u, u ≠ "" → get "client_id" data ≠ JStr u) by (intros u _; discriminate).
  split; [exact Hclient|]. split; [reflexivity|].
  exact (proj1 (non_string_client_id_is_invisible "booking.created" env data w
                  (Some "42") 0 "" Hclient)).
Defined.

(** X16: a handled event shows up in the API.  When the payload's
    [client_id] is a non-empty string and the handler gets past its contact
    check, the list endpoint for that user answers with the earlier list
    followed by one new unread entry carrying the channel's literals, and the
    unread count is one higher than the number of unread entries before. *)
Theorem handled_event_shows_in_api
    (channel : string) (env : Env) (data : JsObject) (w : World)
    (u : string) (ty cat ti : string) :
  u ≠ "" →
  get "client_id" data = JStr u →
  literals channel = Some (ty, cat, ti) →
  (resolves_contact channel = true →
     truthy_value (getUserContact env (JStr u)) = true) →
  ∃ stored,
    get_notifications (Some u) (notifications (on_event channel env data w)) =
      (200, ok_list (get_or_empty (JStr u) (notifications w) ++ [stored]))
    ∧ type (draft stored) = ty ∧ category (draft stored) = cat ∧ title (draft stored) = ti
    ∧ read_at stored = None
    ∧ get_unread_count (Some u) (notifications (on_event channel env data w)) =
        (200, ok_count (S (count_null_read_at (get_or_empty (JStr u) (notifications w))))).
Proof.
  intros Hu Hclient Hliterals Hcontact.
  rewrite <-Hclient in Hcontact.
  destruct (on_event_shape channel env data w)
    as [[_ [Hnone|[Hresolves Hfalsy]]]
       |(ty' & cat' & ti' & to_ & subject_ & body_ & msg & meta & Hrow & _ & ->)].
  - congruence.
  - rewrite (Hcontact Hresolves) in Hfalsy. done.
  - assert (ty' = ty ∧ cat' = cat ∧ ti' = ti) as (-> & -> & ->) by (split_and!; congruence).
    eexists.
    rewrite get_notifications_eq, get_unread_count_eq by done.
    rewrite Hclient, store_get, decide_True by done.
    split_and!; [reflexivity..|].
    rewrite count_null_read_at_app. simpl. do 2 f_equal. lia.
Qed.

Lemma handled_event_shows_in_api_witness :
  let env := {| getUserContact := λ _, VPrim JNull;
                getProgramDetails := λ _, VPrim JNull;
                date_now := 1700000000000; new_date := 1700000000002 |} in
  let data := [("booking_id", JStr "b1"); ("client_id", JStr "u1");
               ("booking_date", JStr "2025-01-15"); ("start_time", JStr "10:00")] in
  let w := {| notifications := ∅; outbox := [] |} in
  "u1" ≠ ""
  ∧ get "client_id" data = JStr "u1"
  ∧ literals "booking.created" =
      Some ("booking_confirmation", "booking_confirmation", "Booking Confirmed")
  ∧ (resolves_contact "booking.created" = true →
       truthy_value (getUserContact env (JStr "u1")) = true)
  ∧ ∃ stored,
      get_notifications (Some "u1") (notifications (on_event "booking.created" env data w)) =
        (200, ok_list (get_or_empty (JStr "u1") (notifications w) ++ [stored]))
      ∧ type (draft stored) = "booking_confirmation".
Proof.
  intros env data w.
  assert (Hu : "u1" ≠ "") by discriminate.
  assert (Hclient : get "client_id" data = JStr "u1") by reflexivity.
  assert (Hliterals : literals "booking.created" =
            Some ("booking_confirmation", "booking_confirmation", "Booking Confirmed"))
    by reflexivity.
  assert (Hcontact : resolves_contact "booking.created" = true →
                     truthy_value (getUserContact env (JStr "u1")) = true)
    by (intros [=]).
  split; [exact Hu|]. split; [exact Hclient|]. split; [exact Hliterals|].
  split; [exact Hcontact|].
  destruct (handled_event_shows_in_api "booking.created" env data w "u1"
              "booking_confirmation" "booking_confirmation" "Booking Confirmed"
              Hu Hclient Hliterals Hcontact) as (stored & Hlist & Htype & _).
  exists stored. split; [exact Hlist | exact Htype].
Defined.

(** ** What the two booking handlers write *)

(** X17: booking.created needs no lookup and never aborts.  For every
    payload it mails ["client-<client_id>@fitsync.com"] and pushes a
    notification whose message contains the payload's date and its time as
    the template renders them (the text [undefined] for a missing field), and
    whose metadata holds exactly [booking_id], [booking_date] and
    [start_time]. *)
Theorem booking_created_mentions_date_and_time (env : Env) (data : JsObject) (w : World) :
  ∃ mail stored,
    outbox (on_event "booking.created" env data w) = outbox w ++ [mail]
    ∧ to mail = JStr ("client-" +:+ ToString (get "client_id" data) +:+ "@fitsync.com")
    ∧ get_or_empty (get "client_id" data)
        (notifications (on_event "booking.created" env data w)) =
        get_or_empty (get "client_id" data) (notifications w) ++ [stored]
    ∧ includes (ToString (get "booking_date" data)) (message (draft stored)) = true
    ∧ includes (ToString (get "start_time" data)) (message (draft stored)) = true
    ∧ metadata (draft stored) =
        [("booking_id", get "booking_id" data);
         ("booking_date", get "booking_date" data);
         ("start_time", get "start_time" data)].
Proof.
  rewrite on_event_booking_created. unfold handleBookingCreated. cbv zeta.
  do 2 eexists. rewrite store_get, decide_True by done.
  split_and!; try reflexivity; cbn [draft message].
  - apply includes_later, includes_here.
  - do 3 apply includes_later. apply includes_here.
Qed.

Lemma includes_Reason_after_prefix (text : string) :
  includes "Reason:" ("Your booking has been cancelled. " +:+ text) =
    includes "Reason:" text.
Proof. reflexivity. Qed.

(** X18: the reason of a cancellation is labelled in the mail only.  For
    every booking.cancelled payload, the mail body contains ["Reason: "]
    exactly when the payload's [reason] is truthy, whereas the stored message
    is the fixed sentence followed by the bare reason: it contains
    ["Reason:"] only if the reason's own text does. *)
Theorem cancellation_reason_is_labelled_in_mail_only
    (env : Env) (data : JsObject) (w : World) :
  ∃ mail stored,
    outbox (on_event "booking.cancelled" env data w) = outbox w ++ [mail]
    ∧ get_or_empty (get "client_id" data)
        (notifications (on_event "booking.cancelled" env data w)) =
        get_or_empty (get "client_id" data) (notifications w) ++ [stored]
    ∧ includes "Reason: " (body mail) = truthy (get "reason" data)
    ∧ message (draft stored) =
        "Your booking has been cancelled. " +:+
        (if truthy (get "reason" data) then ToString (get "reason" data) else "")
    ∧ includes "Reason:" (message (draft stored)) =
        truthy (get "reason" data) && includes "Reason:" (ToString (get "reason" data)).
Proof.
  rewrite on_event_booking_cancelled. unfold handleBookingCancelled. cbv zeta.
  do 2 eexists. rewrite store_get, decide_True by done.
  split_and!; try reflexivity; cbn [draft message body outbox sendEmail].
  - destruct (truthy (get "reason" data)); [|reflexivity].
    apply includes_later, includes_here.
  - unfold js_or. by destruct (truthy (get "reason" data)).
  - rewrite includes_Reason_after_prefix. unfold js_or.
    by destruct (truthy (get "reason" data)).
Qed.

(** * The resolvers *)

Lemma resolver_unfold resolver client prefix c id_ :
  (resolver, client, prefix) ∈ resolver_table →
  resolver c id_ =
    httpClient.try_catch
      (response_data ← httpClient.await (client c (prefix +:+ ToString id_));
       httpClient.data_of response_data)
      (λ _, httpClient.returns (VPrim JNull)).
Proof.
  unfold resolver_table. rewrite !elem_of_cons, elem_of_nil.
  intros [[= -> -> ->]|[[= -> -> ->]|[[= -> -> ->]|[]]]]; reflexivity.
Qed.

(** X19: the resolvers absorb every failure.  Each of [getUserContact],
    [getProgramDetails] and [getBookingDetails] asks its own service for
    its path followed by the id, and never throws: a rejected request gives
    [null], so does a fulfilled one whose body is [null] or [undefined] (the
    TypeError of reading [data] off it is caught), a body that is some other
    primitive gives [undefined], and an object body gives its [data]
    property. *)
Theorem resolvers_absorb_failures
    (resolver : httpClient.Clients → JsPrim → httpClient.Completion JsValue)
    (client : httpClient.Clients → string → httpClient.Settled) (prefix : string)
    (c : httpClient.Clients) (id_ : JsPrim) :
  (resolver, client, prefix) ∈ resolver_table →
  (∃ v, resolver c id_ = httpClient.returns v)
  ∧ (∀ message, client c (prefix +:+ ToString id_) = httpClient.rejected message →
       resolver c id_ = httpClient.returns (VPrim JNull))
  ∧ (∀ p, client c (prefix +:+ ToString id_) = httpClient.fulfilled (httpClient.body_prim p) →
       resolver c id_ =
         httpClient.returns (VPrim (if decide (p = JNull ∨ p = JUndefined)
                                    then JNull else JUndefined)))
  ∧ (∀ fields,
       client c (prefix +:+ ToString id_) = httpClient.fulfilled (httpClient.body_obj fields) →
       resolver c id_ = httpClient.returns (httpClient.own "data" fields)).
Proof.
  intros Hin. rewrite (resolver_unfold resolver client prefix c id_ Hin).
  split_and!.
  - destruct (client c _) as [message|[[| |b|shown|text]|fields]]; simpl; eauto.
  - by intros message ->.
  - intros p ->. by destruct p.
  - by intros fields ->.
Qed.

Lemma resolvers_absorb_failures_witness :
  let c := {| httpClient.userServiceClient := λ _, httpClient.rejected "timeout of 5000ms exceeded";
              httpClient.trainingServiceClient := λ _, httpClient.rejected "Network Error";
              httpClient.scheduleServiceClient := λ _, httpClient.rejected "Network Error" |} in
  (httpClient.getUserContact, httpClient.userServiceClient, "/api/users/") ∈ resolver_table
  ∧ httpClient.getUserContact c (JStr "client-456") = httpClient.returns (VPrim JNull).
Proof.
  intros c.
  assert (Hin : (httpClient.getUserContact, httpClient.userServiceClient, "/api/users/")
                ∈ resolver_table) by apply list_elem_of_here.
  split; [exact Hin|].
  exact (proj1 (proj2 (resolvers_absorb_failures httpClient.getUserContact
                         httpClient.userServiceClient "/api/users/" c (JStr "client-456") Hin))
           "timeout of 5000ms exceeded" eq_refl).
Defined.

Lemma returns_inj {A} (a b : A) : httpClient.returns a = httpClient.returns b → a = b.
Proof. by intros [=]. Qed.

(** X20: a user service that cannot be reached silences the five
    contact-resolving handlers.  With the handlers served by the resolvers,
    if the request for [/api/users/<client_id>] is rejected, the event leaves
    no trace: no mail, no notification. *)
Theorem unreachable_user_service_drops_event
    (c : httpClient.Clients) (channel : string) (env : Env) (data : JsObject) (w : World)
    (message_ : string) :
  served_by c env →
  resolves_contact channel = true →
  httpClient.userServiceClient c ("/api/users/" +:+ ToString (get "client_id" data)) =
    httpClient.rejected message_ →
  on_event channel env data w = w.
Proof.
  intros Hserved Hresolves Hrejected.
  destruct (Hserved (get "client_id" data)) as [Hcontact _].
  unfold httpClient.getUserContact in Hcontact. rewrite Hrejected in Hcontact.
  apply returns_inj in Hcontact.
  destruct (on_event_shape channel env data w)
    as [[Hsame _]|(ty & cat & ti & to_ & subject_ & body_ & msg & meta & _ & Htruthy & _)];
    [done|].
  specialize (Htruthy Hresolves). by rewrite <-Hcontact in Htruthy.
Qed.

Lemma unreachable_user_service_witness :
  let c := {| httpClient.userServiceClient := λ _, httpClient.rejected "timeout of 5000ms exceeded";
              httpClient.trainingServiceClient := λ _, httpClient.rejected "Network Error";
              httpClient.scheduleServiceClient := λ _, httpClient.rejected "Network Error" |} in
  let env := {| getUserContact := λ _, VPrim JNull;
                getProgramDetails := λ _, VPrim JNull;
                date_now := 1700000000000; new_date := 1700000000002 |} in
  let data := [("program_id", JStr "program-123"); ("client_id", JStr "client-456")] in
  let w := {| notifications := ∅; outbox := [] |} in
  served_by c env
  ∧ resolves_contact "program.completed" = true
  ∧ httpClient.userServiceClient c ("/api/users/" +:+ ToString (get "client_id" data)) =
      httpClient.rejected "timeout of 5000ms exceeded"
  ∧ on_event "program.completed" env data w = w.
Proof.
  intros c env data w.
  assert (Hserved : served_by c env) by (intros id_; split; reflexivity).
  assert (Hresolves : resolves_contact "program.completed" = true) by reflexivity.
  assert (Hrejected :
    httpClient.userServiceClient c ("/api/users/" +:+ ToString (get "client_id" data)) =
      httpClient.rejected "timeout of 5000ms exceeded") by reflexivity.
  split; [exact Hserved|]. split; [exact Hresolves|]. split; [exact Hrejected|].
  exact (unreachable_user_service_drops_event c "program.completed" env data w
           "timeout of 5000ms exceeded" Hserved Hresolves Hrejected).
Defined.

(** X21: a training service that cannot be reached does not stop
    program.assigned.  With the handlers served by the resolvers, if the user
    service answers with a contact object and the request for
    [/api/programs/<program_id>] is rejected, the handler mails the contact's
    [email] and pushes a notification whose message names the program
    ["Training Program"]. *)
Theorem unreachable_training_service_falls_back
    (c : httpClient.Clients) (env : Env) (data : JsObject) (w : World)
    (fields : list (string * JsValue)) (contact : JsObject) (message_ : string) :
  served_by c env →
  httpClient.userServiceClient c ("/api/users/" +:+ ToString (get "client_id" data)) =
    httpClient.fulfilled (httpClient.body_obj fields) →
  httpClient.own "data" fields = VObj contact →
  httpClient.trainingServiceClient c ("/api/programs/" +:+ ToString (get "program_id" data)) =
    httpClient.rejected message_ →
  ∃ mail stored,
    outbox (on_event "program.assigned" env data w) = outbox w ++ [mail]
    ∧ to mail = get "email" contact
    ∧ get_or_empty (get "client_id" data)
        (notifications (on_event "program.assigned" env data w)) =
        get_or_empty (get "client_id" data) (notifications w) ++ [stored]
    ∧ message (draft stored) = "Your trainer assigned you: Training Program".
Proof.
  intros Hserved Huser Hcontact Htraining.
  destruct (Hserved (get "client_id" data)) as [Hclient _].
  destruct (Hserved (get "program_id" data)) as [_ Hprogram].
  unfold httpClient.getUserContact in Hclient. rewrite Huser in Hclient.
  unfold httpClient.getProgramDetails in Hprogram. rewrite Htraining in Hprogram.
  apply returns_inj in Hclient. apply returns_inj in Hprogram.
  simpl in Hclient. rewrite Hcontact in Hclient.
  rewrite on_event_program_assigned. unfold handleProgramAssigned. cbv zeta.
  rewrite <-Hclient, <-Hprogram. simpl negb. cbv iota.
  do 2 eexists. rewrite store_get, decide_True by done.
  split_and!; reflexivity.
Qed.

Lemma unreachable_training_service_witness :
  let contact := [("first_name", JStr "John"); ("email", JStr "john.doe@example.com")] in
  let c := {| httpClient.userServiceClient :=
                λ _, httpClient.fulfilled (httpClient.body_obj [("data", VObj contact)]);
              httpClient.trainingServiceClient := λ _, httpClient.rejected "Network Error";
              httpClient.scheduleServiceClient := λ _, httpClient.rejected "Network Error" |} in
  let env := {| getUserContact := λ _, VObj contact;
                getProgramDetails := λ _, VPrim JNull;
                date_now := 1700000000000; new_date := 1700000000002 |} in
  let data := [("program_id", JStr "program-123"); ("client_id", JStr "client-456")] in
  let w := {| notifications := ∅; outbox := [] |} in
  served_by c env
  ∧ httpClient.userServiceClient c ("/api/users/" +:+ ToString (get "client_id" data)) =
      httpClient.fulfilled (httpClient.body_obj [("data", VObj contact)])
  ∧ httpClient.own "data" [("data", VObj contact)] = VObj contact
  ∧ httpClient.trainingServiceClient c
      ("/api/programs/" +:+ ToString (get "program_id" data)) =
      httpClient.rejected "Network Error"
  ∧ ∃ mail stored,
      outbox (on_event "program.assigned" env data w) = outbox w ++ [mail]
      ∧ to mail = get "email" contact
      ∧ get_or_empty (get "client_id" data)
          (notifications (on_event "program.assigned" env data w)) =
          get_or_empty (get "client_id" data) (notifications w) ++ [stored]
      ∧ message (draft stored) = "Your trainer assigned you: Training Program".
Proof.
  intros contact c env data w.
  assert (Hserved : served_by c env) by (intros id_; split; reflexivity).
  assert (Huser :
    httpClient.userServiceClient c ("/api/users/" +:+ ToString (get "client_id" data)) =
      httpClient.fulfilled (httpClient.body_obj [("data", VObj contact)])) by reflexivity.
  assert (Hcontact : httpClient.own "data" [("data", VObj contact)] = VObj contact)
    by reflexivity.
  assert (Htraining :
    httpClient.trainingServiceClient c
      ("/api/programs/" +:+ ToString (get "program_id" data)) =
      httpClient.rejected "Network Error") by reflexivity.
  split; [exact Hserved|]. split; [exact Huser|]. split; [exact Hcontact|].
  split; [exact Htraining|].
  exact (unreachable_training_service_falls_back c env data w
           [("data", VObj contact)] contact "Network Error"
           Hserved Huser Hcontact Htraining).
Defined.
